(** * The staged configuration pipeline of [main_tenpy.py]

    A shallow embedding of the document store ([load_yaml], [dump_yaml]) and
    of the four stages that build the simulation document
    ([spinhalf_lattice_config], [spinhalf_model_config],
    [spinhalf_initial_state], [dmrg_and_measu_config]), and the properties
    the specification states about them; then the run of the simulation
    ([dmrg_run], with tenpy's loader and solver as the interface [Solver])
    and further properties of the stages.

    Conventions of the embedding.
    - A YAML value is the inductive type [yaml]; a Python [dict] with string
      keys is a [gmap string yaml] (key order is not observable: PyYAML
      sorts keys when it dumps and [dict] equality ignores order).
    - The file system is a finite map from paths to file texts; directories
      are not modelled.  PyYAML, tenpy and numpy's random source are not part
      of the repository; they are the interfaces [PyYAML], [TenPy] and
      [Random] below.
    - A Python [float] is the rational number it denotes and its arithmetic
      is exact: the rounding of binary64, overflow, infinities and NaN are not
      modelled.  On the concrete charges used below (multiples of [2^-40] of
      small magnitude) [2 * q], [int(x)], [x - int(x)] and [q + n / 2] are
      exact in binary64 too, and every comparison of [math.isclose] is decided
      by a margin far above the rounding error of its tolerance.
    - A stage is a function from the world before the call to a result
      (the value returned or the exception raised) and the world after it, so
      what an aborted call has already written stays visible. *)

From Stdlib Require Import ZArith QArith Qabs Qround Lia Lqa.
From stdpp Require Import gmap strings list fin_maps.

Local Open Scope string_scope.
Local Set Warnings "-register-all".

(** ** YAML values *)

Inductive yaml : Type :=
| YNull
| YBool (b : bool)
| YInt (n : Z)
| YFloat (x : Q)
| YStr (s : string)
| YList (l : list yaml)
| YMap (m : gmap string yaml).

(** Python truth value, as used by [yaml.safe_load(f) or {}]. *)
Definition truthy (v : yaml) : bool :=
  match v with
  | YNull => false
  | YBool b => b
  | YInt n => negb (n =? 0)%Z
  | YFloat x => negb (Qeq_bool x 0)
  | YStr s => negb (String.eqb s "")
  | YList l => match l with [] => false | _ :: _ => true end
  | YMap m => match map_to_list m with [] => false | _ :: _ => true end
  end.

(** [a or b] *)
Definition py_or (a b : yaml) : yaml := if truthy a then a else b.

(** ** Exceptions *)

Inductive error : Type :=
| InvalidLatticeType          (* ValueError("Unsupported lattice_type: ...") *)
| InvalidBoundaryCondition    (* ValueError("Invalid bc_x: ...") / ("Invalid bc_y: ...") *)
| UnreachableValueError       (* the bare [raise ValueError] of stage 1 *)
| InvalidCharge               (* ValueError("tot_charge is not half integer! ") *)
| UnsupportedConservationLaw  (* ValueError("Symmetry not yet supported! ") *)
| InconsistentCharge          (* ValueError("Inconsistent tot_charge and system size! ") *)
| ModelConstructionError      (* whatever the tenpy constructor raises *)
| DocumentIOError             (* yaml.YAMLError from safe_load *)
| KeyError (k : string)       (* d[k] on a dict without k *)
| TypeError                   (* item access or assignment on a non-mapping *)
| AttributeError              (* .get / .setdefault / .copy on a value without it *)
| NumpyValueError.            (* ValueError raised inside numpy: reshape, randint *)

Inductive result (A : Type) : Type :=
| Ok (a : A)
| Raise (e : error).
Arguments Ok {A} a.
Arguments Raise {A} e.

Definition is_ok {A} (r : result A) : bool :=
  match r with Ok _ => true | Raise _ => false end.

(** ** External interfaces *)

(** PyYAML: [yaml.safe_dump] and [yaml.safe_load] on file texts.  [None] is a
    text that does not parse. *)
Class PyYAML (text : Type) := {
  safe_dump : yaml → text;
  safe_load : text → option yaml;
  safe_load_dump : ∀ v, safe_load (safe_dump v) = Some v
}.

(** What stage 3 reads off a constructed tenpy model: [lat.N_sites],
    [lat.shape] and [lat.site(0).conserve]. *)
Record Model := {
  N_sites : nat;
  shape : list nat;
  conserve : option string
}.

(** The product of the extents of a shape. *)
Definition prod_shape (sh : list nat) : nat := foldr Nat.mul 1%nat sh.

(** tenpy: [eval(f"tenpy.models.{cls}(model_params)")], [None] when it
    raises, and the text of [inspect.getsource(...init_terms)].  A lattice has
    as many sites as its shape has cells. *)
Class TenPy := {
  construct : yaml → yaml → option Model;
  init_terms_source : string → string;
  construct_sites : ∀ cls mp m,
    construct cls mp = Some m → N_sites m = prod_shape (shape m)
}.

(** numpy's process-wide random source, threaded as a state [G]:
    [np.random.randint(n)] for [0 < n] and [np.random.shuffle]. *)
Class Random (G : Type) := {
  draw : nat → G → nat * G;
  shuffle : list string → G → list string * G;
  draw_lt : ∀ n g, (0 < n)%nat → ((draw n g).1 < n)%nat;
  shuffle_perm : ∀ l g, (shuffle l g).1 ≡ₚ l
}.

(** ** The world and the monad of a stage *)

Record world (text G : Type) := World {
  files : gmap string text;   (* the file at each path *)
  cwd : string;               (* Path.cwd() *)
  rng : G                     (* numpy's random state *)
}.
Arguments World {text G} files cwd rng.
Arguments files {text G} w.
Arguments cwd {text G} w.
Arguments rng {text G} w.

Definition M (text G A : Type) : Type := world text G → result A * world text G.

Definition ret {text G A} (a : A) : M text G A := λ w, (Ok a, w).
Definition raise {text G A} (e : error) : M text G A := λ w, (Raise e, w).
Definition bind {text G A B} (c : M text G A) (k : A → M text G B) : M text G B :=
  λ w, match c w with
       | (Ok a, w') => k a w'
       | (Raise e, w') => (Raise e, w')
       end.

Notation "'let*' x ':=' c 'in' k" := (bind c (λ x, k))
  (at level 10, x pattern, c at level 100, k at level 200).

(** Lifting of a pure step that may raise. *)
Definition lift {text G A} (r : result A) : M text G A := λ w, (r, w).

(** ** Operations on Python values *)

(** [d[k] = v] *)
Definition setitem (d : yaml) (k : string) (v : yaml) : result yaml :=
  match d with
  | YMap m => Ok (YMap (<[k:=v]> m))
  | _ => Raise TypeError
  end.

(** [d[k]] *)
Definition getitem (d : yaml) (k : string) : result yaml :=
  match d with
  | YMap m => match m !! k with Some v => Ok v | None => Raise (KeyError k) end
  | _ => Raise TypeError
  end.

(** [d.setdefault(k, dflt)]: the value now under [k] and the dict.  In Python
    the value is an alias of the entry of [d]; the stages write it back with
    [setitem] once they have updated it. *)
Definition setdefault (d : yaml) (k : string) (dflt : yaml) : result (yaml * yaml) :=
  match d with
  | YMap m => match m !! k with
              | Some v => Ok (v, d)
              | None => Ok (dflt, YMap (<[k:=dflt]> m))
              end
  | _ => Raise AttributeError
  end.

(** [d.get(k, dflt)] *)
Definition get (d : yaml) (k : string) (dflt : yaml) : result yaml :=
  match d with
  | YMap m => Ok (default dflt (m !! k))
  | _ => Raise AttributeError
  end.

(** [v.copy()]: dicts and lists have it. *)
Definition copy (v : yaml) : result yaml :=
  match v with
  | YMap _ | YList _ => Ok v
  | _ => Raise AttributeError
  end.

(** [d.pop(k, None)], for its effect on [d]. *)
Definition pop (d : yaml) (k : string) : result yaml :=
  match d with
  | YMap m => Ok (YMap (delete k m))
  | YList _ => Raise TypeError
  | _ => Raise AttributeError
  end.

Definition _ALLOWED_LATTICES_1D : list string := ["Chain"].
Definition _ALLOWED_LATTICES_2D : list string :=
  ["Square"; "Triangular"; "Honeycomb"; "Kagome"].
Definition _ALLOWED_BC : list string := ["open"; "periodic"].

(** [x in s] for a string and a set of strings. *)
Definition str_in (x : string) (s : list string) : bool := bool_decide (x ∈ s).

(** [x in s] for a value that may be [None]. *)
Definition opt_in (x : option string) (s : list string) : bool :=
  match x with Some x => str_in x s | None => false end.

Definition yaml_of_opt_int (x : option Z) : yaml :=
  match x with Some n => YInt n | None => YNull end.
Definition yaml_of_opt_str (x : option string) : yaml :=
  match x with Some s => YStr s | None => YNull end.

(** ** Numbers *)

(** [int(x)] of a float: truncation toward zero. *)
Definition int (x : Q) : Z := Z.quot (Qnum x) (Z.pos (Qden x)).

Definition rel_tol : Q := 1 # 1000000000.
Definition abs_tol : Q := 0.

(** [math.isclose(a, b)] with its default tolerances, as CPython computes
    it. *)
Definition isclose (a b : Q) : bool :=
  if Qeq_bool a b then true
  else
    let diff := Qabs (b - a) in
    Qle_bool diff (Qabs (rel_tol * b))
    || Qle_bool diff (Qabs (rel_tol * a))
    || Qle_bool diff abs_tol.

(** ** Arrays *)

(** [count] consecutive pieces of [size] elements each. *)
Fixpoint chunks {A} (size count : nat) (l : list A) : list (list A) :=
  match count with
  | O => []
  | S count => take size l :: chunks size count (drop size l)
  end.

(** [a.reshape(sh).tolist()] for a flat array of strings whose size is the
    product of [sh]: row-major nested lists, a bare string for the empty
    shape. *)
Fixpoint reshape_tolist (sh : list nat) (l : list string) : yaml :=
  match sh with
  | [] => YStr (hd "" l)
  | d :: sh' => YList (List.map (reshape_tolist sh') (chunks (prod_shape sh') d l))
  end.

(** numpy refuses a shape whose product is not the size of the array. *)
Definition reshape (sh : list nat) (l : list string) : result yaml :=
  if (length l =? prod_shape sh)%nat then Ok (reshape_tolist sh l)
  else Raise NumpyValueError.

(** The labels of a nested list, in row-major order. *)
Fixpoint labels (v : yaml) : list string :=
  match v with
  | YStr s => [s]
  | YList l => List.concat (List.map labels l)
  | _ => []
  end.

(** [v] is a nested list of strings of shape [sh]. *)
Fixpoint has_shape (sh : list nat) (v : yaml) : Prop :=
  match sh with
  | [] => ∃ s, v = YStr s
  | d :: sh' => ∃ l, v = YList l ∧ length l = d ∧ Forall (has_shape sh') l
  end.

(** How often [x] occurs in [l]. *)
Definition count (x : string) (l : list string) : nat :=
  length (filter (λ y, y = x) l).

(** [c in ["Sz", None]] *)
Definition conserve_supported (c : option string) : bool :=
  match c with
  | Some s => String.eqb s "Sz"
  | None => true
  end.

Definition TextContent : Type := string.

Section Stages.
Context {text G : Type} `{!PyYAML text} `{!TenPy} `{!Random G}.

Local Abbreviation M := (M text G).

(** ** The document store *)

Definition write_file (path : string) (t : text) : M unit :=
  λ w, (Ok tt, World (<[path := t]> (files w)) (cwd w) (rng w)).

Definition load_yaml (path : string) : M yaml :=
  λ w, match files w !! path with
       | Some t =>
           match safe_load t with
           | Some v => (Ok (py_or v (YMap ∅)), w)
           | None => (Raise DocumentIOError, w)
           end
       | None =>
           let data := YMap ∅ in
           (let* _ := write_file path (safe_dump data) in ret data) w
       end.

Definition dump_yaml (data : yaml) (path : string) : M unit :=
  write_file path (safe_dump data).

(** [Path(path) if path is not None else (Path.cwd() / "config.yml")] *)
Definition resolve (path : option string) : M string :=
  λ w, (Ok (match path with
            | Some p => p
            | None => cwd w ++ "/config.yml"
            end), w).

(** ** Stage 1 *)

Definition default_bc_x : string := "open".
Definition default_bc_y : option string := Some "periodic".

Definition spinhalf_lattice_config (lattice_type : string) (Lx : Z)
    (Ly : option Z) (bc_x : string) (bc_y : option string)
    (path : option string) : M TextContent :=
  let model_class := "SpinModel" in
  let S := YFloat (1 # 2) in
  let* (d, Ly, bc_y) :=
    if str_in lattice_type _ALLOWED_LATTICES_1D then ret (1%nat, None, None)
    else if str_in lattice_type _ALLOWED_LATTICES_2D then ret (2%nat, Ly, bc_y)
    else raise InvalidLatticeType in
  let* _ := if negb (str_in bc_x _ALLOWED_BC)
             then raise InvalidBoundaryCondition else ret tt in
  let* _ := if (d =? 2)%nat && negb (opt_in bc_y _ALLOWED_BC)
             then raise InvalidBoundaryCondition else ret tt in
  let* path := resolve path in
  let* data := load_yaml path in
  let* data := lift (setitem data "model_class" (YStr model_class)) in
  let* (model_params, data) := lift (setdefault data "model_params" (YMap ∅)) in
  let* model_params := lift (setitem model_params "lattice" (YStr lattice_type)) in
  let* model_params := lift (setitem model_params "S" S) in
  let* model_params := lift (setitem model_params "bc_MPS" (YStr "finite")) in
  let* model_params :=
    if (d =? 1)%nat then
      let* model_params := lift (setitem model_params "L" (YInt Lx)) in
      let* model_params := lift (setitem model_params "bc_x" (YStr bc_x)) in
      let* model_params := lift (pop model_params "Lx") in
      let* model_params := lift (pop model_params "Ly") in
      lift (pop model_params "bc_y")
    else if (d =? 2)%nat then
      let* model_params := lift (setitem model_params "Lx" (YInt Lx)) in
      let* model_params := lift (setitem model_params "Ly" (yaml_of_opt_int Ly)) in
      let* model_params := lift (setitem model_params "bc_x" (YStr bc_x)) in
      let* model_params := lift (setitem model_params "bc_y" (yaml_of_opt_str bc_y)) in
      lift (pop model_params "L")
    else raise UnreachableValueError in
  (* [model_params] is the object stored in [data] *)
  let* data := lift (setitem data "model_params" model_params) in
  let* _ := dump_yaml data path in
  ret (init_terms_source model_class).

(** ** Stage 2 *)

(** [for name, val in params_dict.items(): model_params[name] = val] *)
Fixpoint merge_items (items : list (string * yaml)) (model_params : yaml)
    : result yaml :=
  match items with
  | [] => Ok model_params
  | (name, val) :: items =>
      match setitem model_params name val with
      | Ok model_params => merge_items items model_params
      | Raise e => Raise e
      end
  end.

(** [f"{c}"] for a conservation law. *)
Definition show_conserve (c : option string) : string :=
  match c with Some s => s | None => "None" end.

Definition spinhalf_model_config (params_dict : list (string * yaml))
    (path : option string) : M TextContent :=
  let* path := resolve path in
  let* data := load_yaml path in
  let* (model_params, data) := lift (setdefault data "model_params" (YMap ∅)) in
  let* model_params := lift (merge_items params_dict model_params) in
  let* model_params := lift (setitem model_params "conserve" (YStr "best")) in
  let* data := lift (setitem data "model_params" model_params) in
  let* _ := dump_yaml data path in
  let* model_class := lift (getitem data "model_class") in
  let* model_obj :=
    match construct model_class model_params with
    | Some m => ret m
    | None => raise ModelConstructionError
    end in
  let is_conserve_str := conserve model_obj in
  ret ("The conservation property of the model is: "
         ++ show_conserve is_conserve_str).

(** ** Stage 3 *)

Definition np_random_randint (n : nat) : M nat :=
  λ w, if (n =? 0)%nat then (Raise NumpyValueError, w)
       else let '(k, g) := draw n (rng w) in
            (Ok k, World (files w) (cwd w) g).

Definition np_random_shuffle (l : list string) : M (list string) :=
  λ w, let '(l', g) := shuffle l (rng w) in
       (Ok l', World (files w) (cwd w) g).

Definition spinhalf_initial_state (tot_charge : option Q)
    (path : option string) : M TextContent :=
  let* _ :=
    match tot_charge with
    | Some q =>
        if negb (isclose (2 * q) (inject_Z (int (2 * q))))
        then raise InvalidCharge else ret tt
    | None => ret tt
    end in
  let* path := resolve path in
  let* data := load_yaml path in
  let* model_params := lift (get data "model_params" (YMap ∅)) in
  let* model_params := lift (copy model_params) in
  let* model_class := lift (getitem data "model_class") in
  let* model_obj :=
    match construct model_class model_params with
    | Some m => ret m
    | None => raise ModelConstructionError
    end in
  let is_conserve_str := conserve model_obj in
  let* _ := if negb (conserve_supported is_conserve_str)
             then raise UnsupportedConservationLaw else ret tt in
  let shape := shape model_obj in
  let n_sites := N_sites model_obj in
  let* (n_up, n_dn) :=
    match tot_charge with
    | None =>
        let* n_up := np_random_randint n_sites in
        ret (Z.of_nat n_up, (Z.of_nat n_sites - Z.of_nat n_up)%Z)
    | Some tot_charge =>
        let n_up := (tot_charge + inject_Z (Z.of_nat n_sites) / 2)%Q in
        let n_dn := (- tot_charge + inject_Z (Z.of_nat n_sites) / 2)%Q in
        if negb (isclose n_up (inject_Z (int n_up))
                 && isclose n_dn (inject_Z (int n_dn)))
        then raise InconsistentCharge
        else ret (int n_up, int n_dn)
    end in
  let init :=
    (repeat "up" (Z.to_nat n_up) ++ repeat "down" (Z.to_nat n_dn))%list in
  let* init := np_random_shuffle init in
  let* init := lift (reshape shape init) in
  let* (init_state_params, data) :=
    lift (setdefault data "initial_state_params" (YMap ∅)) in
  let* init_state_params :=
    lift (setitem init_state_params "method" (YStr "lat_product_state")) in
  let* init_state_params :=
    lift (setitem init_state_params "product_state" init) in
  (* [init_state_params] is the object stored in [data] *)
  let* data := lift (setitem data "initial_state_params" init_state_params) in
  let* _ := dump_yaml data path in
  ret "The DMRG initial state is successfully generated! We should then set the DMRG algorithm parameters and measurement parameters. ".

(** ** Stage 4 *)

Definition connect_measurements : yaml :=
  YList
    [ YList [ YStr "tenpy.simulations.measurement";
              YStr "m_onsite_expectation_value";
              YMap {[ "opname" := YStr "Sz" ]} ];
      YList [ YStr "psi_method"; YStr "wrap correlation_function";
              YMap (<["results_key" := YStr "<Sz_i Sz_j>"]>
                     (<["ops1" := YStr "Sz"]> {[ "ops2" := YStr "Sz" ]})) ];
      YList [ YStr "psi_method"; YStr "wrap correlation_function";
              YMap (<["results_key" := YStr "<Sp_i Sm_j>"]>
                     (<["ops1" := YStr "Sp"]> {[ "ops2" := YStr "Sm" ]})) ] ].

Definition algorithm_params (chi_max max_sweeps : Z) : yaml :=
  YMap (<["algorithm" := YStr "TwoSiteDMRGEngine"]>
       (<["max_sweeps" := YInt max_sweeps]>
       (<["mixer" := YBool false]>
       {[ "trunc_params" :=
            YMap (<["chi_max" := YInt chi_max]>
                  {[ "svd_min" := YFloat (1 # 100000000) ]}) ]}))).

Definition output_filename_params : yaml :=
  YMap (<["prefix" := YStr "result"]> {[ "suffix" := YStr ".h5" ]}).

Definition dmrg_and_measu_config (chi_max max_sweeps : Z)
    (path : option string) : M TextContent :=
  let* path := resolve path in
  let* data := load_yaml path in
  let* data := lift (setitem data "simulation_class" (YStr "GroundStateSearch")) in
  let* data := lift (setitem data "algorithm_params"
                       (algorithm_params chi_max max_sweeps)) in
  let* data := lift (setitem data "measure_initial" (YBool false)) in
  let* data := lift (setitem data "connect_measurements" connect_measurements) in
  let* data := lift (setitem data "output_filename_params" output_filename_params) in
  let* _ := dump_yaml data path in
  ret "All required configurations are generated. Ready for performing computations! ".

End Stages.

(** * Vocabulary of the statements *)

Section Vocabulary.
Context {text G : Type} `{!PyYAML text} `{!TenPy}.

Local Abbreviation world := (world text G).

(** ** Documents and files *)

(** The path a stage works on. *)
Definition target (path : option string) (w : world) : string :=
  match path with
  | Some p => p
  | None => cwd w ++ "/config.yml"
  end.

(** The value PyYAML reads from the file at [p], if the file exists and
    parses. *)
Definition persisted (w : world) (p : string) : option yaml :=
  files w !! p ≫= safe_load.

(** The top-level section [k] of the document persisted at [p]. *)
Definition section (w : world) (p k : string) : option yaml :=
  match persisted w p with
  | Some (YMap d) => d !! k
  | _ => None
  end.

(** [w] with the file at [p] replaced by the dump of [v]. *)
Definition written (w : world) (p : string) (v : yaml) : world :=
  World (<[p := safe_dump v]> (files w)) (cwd w) (rng w).

(** A call left the files alone, or at most created the empty document at a
    path that had no file. *)
Definition no_write (p : string) (w w' : world) : Prop :=
  files w' = files w
  ∨ (files w !! p = None ∧ files w' = <[p := safe_dump (YMap ∅)]> (files w)).

(** The mapping that [d.setdefault(k, {})] yields, when it is a mapping. *)
Definition submap (d : gmap string yaml) (k : string)
    : option (gmap string yaml) :=
  match d !! k with
  | None => Some ∅
  | Some (YMap m) => Some m
  | Some _ => None
  end.

(** ** Stage 1 *)

(** The checks of stage 1. *)
Definition stage1_valid (lattice_type bc_x : string) (bc_y : option string)
    : bool :=
  (str_in lattice_type _ALLOWED_LATTICES_1D
   || str_in lattice_type _ALLOWED_LATTICES_2D)
  && str_in bc_x _ALLOWED_BC
  && (str_in lattice_type _ALLOWED_LATTICES_1D || opt_in bc_y _ALLOWED_BC).

(** What stage 1 makes of the mapping [mp] under [model_params]. *)
Definition lattice_params (lattice_type : string) (Lx : Z) (Ly : option Z)
    (bc_x : string) (bc_y : option string) (mp : gmap string yaml)
    : gmap string yaml :=
  let mp := <["bc_MPS" := YStr "finite"]>
              (<["S" := YFloat (1 # 2)]>
                 (<["lattice" := YStr lattice_type]> mp)) in
  if str_in lattice_type _ALLOWED_LATTICES_1D then
    delete "bc_y" (delete "Ly" (delete "Lx"
      (<["bc_x" := YStr bc_x]> (<["L" := YInt Lx]> mp))))
  else
    delete "L"
      (<["bc_y" := yaml_of_opt_str bc_y]> (<["bc_x" := YStr bc_x]>
        (<["Ly" := yaml_of_opt_int Ly]> (<["Lx" := YInt Lx]> mp)))).

(** The keys that describe the lattice extents and boundary conditions, and
    those of them a mapping has. *)
Definition lattice_keys : list string := ["L"; "Lx"; "Ly"; "bc_x"; "bc_y"].

Definition has_key (mp : gmap string yaml) (k : string) : bool :=
  bool_decide (is_Some (mp !! k)).

Definition lattice_keys_of (mp : gmap string yaml) : list string :=
  List.filter (has_key mp) lattice_keys.

(** The lattice keys of the [model_params] persisted at [p]. *)
Definition persisted_lattice_keys (w : world) (p : string)
    : option (list string) :=
  match section w p "model_params" with
  | Some (YMap mp) => Some (lattice_keys_of mp)
  | _ => None
  end.

(** The key set of a lattice type: the 1-D or the 2-D representation. *)
Definition expected_keys (lattice_type : string) : list string :=
  if str_in lattice_type _ALLOWED_LATTICES_1D then ["L"; "bc_x"]
  else ["Lx"; "Ly"; "bc_x"; "bc_y"].

(** The [model_params] of the end-to-end scenario. *)
Definition chain4_params : gmap string yaml :=
  <["lattice" := YStr "Chain"]>
    (<["S" := YFloat (1 # 2)]>
       (<["bc_MPS" := YStr "finite"]>
          (<["L" := YInt 4]> {[ "bc_x" := YStr "open" ]}))).

(** ** Stage 2 *)

(** What the loop of stage 2 makes of the mapping [mp]. *)
Definition merged_params (items : list (string * yaml))
    (mp : gmap string yaml) : gmap string yaml :=
  foldl (λ m kv, <[kv.1 := kv.2]> m) mp items.

(** The [model_params] stage 2 persists. *)
Definition stage2_params (items : list (string * yaml))
    (mp : gmap string yaml) : gmap string yaml :=
  <["conserve" := YStr "best"]> (merged_params items mp).

(** The result of stage 2 once it has written the document [d] with the
    parameters [mp]. *)
Definition stage2_result (d mp : gmap string yaml) : result TextContent :=
  match d !! "model_class" with
  | None => Raise (KeyError "model_class")
  | Some cls =>
      match construct cls (YMap mp) with
      | Some m => Ok ("The conservation property of the model is: "
                        ++ show_conserve (conserve m))
      | None => Raise ModelConstructionError
      end
  end.

(** ** Stage 3 *)

(** [x] is within the relative tolerance of [math.isclose] above an integer,
    in magnitude: the distance of [|x|] to the integer below it is at most
    [rel_tol * |x|]. *)
Definition near_integer (x : Q) : Prop :=
  (Qabs x - inject_Z (Qfloor (Qabs x)) <= rel_tol * Qabs x)%Q.

(** [tot_charge + n_sites / 2] and [-tot_charge + n_sites / 2]. *)
Definition n_up_of (q : Q) (n_sites : nat) : Q :=
  (q + inject_Z (Z.of_nat n_sites) / 2)%Q.

Definition n_dn_of (q : Q) (n_sites : nat) : Q :=
  (- q + inject_Z (Z.of_nat n_sites) / 2)%Q.

(** Stage 3 finds at [p] the document [d], from which tenpy builds the
    model [m]. *)
Definition model_at (w : world) (p : string) (d : gmap string yaml)
    (m : Model) : Prop :=
  load_yaml p w = (Ok (YMap d), w)
  ∧ ∃ cls mp,
      d !! "model_class" = Some cls
      ∧ copy (default (YMap ∅) (d !! "model_params")) = Ok mp
      ∧ construct cls mp = Some m.

(** ** Stage 4 *)

(** The document stage 4 persists. *)
Definition stage4_document (chi_max max_sweeps : Z) (d : gmap string yaml)
    : gmap string yaml :=
  <["output_filename_params" := output_filename_params]>
    (<["connect_measurements" := connect_measurements]>
       (<["measure_initial" := YBool false]>
          (<["algorithm_params" := algorithm_params chi_max max_sweeps]>
             (<["simulation_class" := YStr "GroundStateSearch"]> d)))).

End Vocabulary.

(** * A concrete world to run the stages in *)

(** Files that hold the YAML value itself. *)
#[export] Instance yaml_text : PyYAML yaml :=
  {| safe_dump := λ v, v; safe_load := Some; safe_load_dump := λ _, eq_refl |}.

(** A stand-in for tenpy that knows spin chains only: [SpinModel] on a
    [Chain] of [L > 0] sites has shape [(L, 1)]; it conserves [Sz] unless a
    transverse field [hx] is given, which leaves parity. *)
Definition chain_construct (cls mp : yaml) : option Model :=
  match cls, mp with
  | YStr c, YMap m =>
      match m !! "lattice", m !! "L" with
      | Some (YStr lat), Some (YInt n) =>
          if String.eqb c "SpinModel" && String.eqb lat "Chain" && (0 <? n)%Z
          then Some {| N_sites := Z.to_nat n;
                       shape := [Z.to_nat n; 1%nat];
                       conserve := match m !! "hx" with
                                   | Some _ => Some "parity"
                                   | None => Some "Sz"
                                   end |}
          else None
      | _, _ => None
      end
  | _, _ => None
  end.

#[export] Instance chain_tenpy : TenPy.
Proof.
  refine {| construct := chain_construct;
            init_terms_source := λ c, "def init_terms(self, model_params): ..." |}.
  unfold chain_construct. intros cls mp m Hc.
  repeat case_match; simplify_eq; cbn; lia.
Defined.

(** A linear congruential generator; the shuffle inserts each element at a
    drawn position of the part already shuffled. *)
Definition lcg_next (g : nat) : nat := ((g * 75 + 74) mod 4093)%nat.

Definition lcg_draw (n g : nat) : nat * nat := ((g mod n)%nat, lcg_next g).

Fixpoint lcg_insert_all (l acc : list string) (g : nat) : list string * nat :=
  match l with
  | [] => (acc, g)
  | x :: l =>
      let k := (g mod S (length acc))%nat in
      lcg_insert_all l (take k acc ++ x :: drop k acc)%list (lcg_next g)
  end.

Definition lcg_shuffle (l : list string) (g : nat) : list string * nat :=
  lcg_insert_all l [] g.

#[export] Instance lcg_random : Random nat.
Proof.
  refine {| draw := lcg_draw; shuffle := lcg_shuffle |}.
  - intros n g Hn. cbn. apply Nat.mod_upper_bound. lia.
  - assert (∀ l acc g, (lcg_insert_all l acc g).1 ≡ₚ (l ++ acc)%list) as Hins.
    { induction l as [|x l IH]; intros acc g; cbn [lcg_insert_all]; [done|].
      rewrite IH.
      assert (take (g mod S (length acc)) acc
                ++ x :: drop (g mod S (length acc)) acc ≡ₚ x :: acc)%list as ->.
      { by rewrite <- Permutation_middle, take_drop. }
      symmetry. apply Permutation_middle. }
    intros l g. unfold lcg_shuffle. rewrite Hins. by rewrite app_nil_r.
Defined.

(** A world without files. *)
Definition w_empty : world yaml nat := World ∅ "/home/user" 7%nat.

(** The default path in that world. *)
Definition config_yml : string := "/home/user/config.yml".

(** The document stage 1 persists for a chain of four sites, the world that
    holds it at the default path, and the model tenpy builds from it. *)
Definition chain4_document : gmap string yaml :=
  <["model_class" := YStr "SpinModel"]> {[ "model_params" := YMap chain4_params ]}.

Definition w_chain4 : world yaml nat :=
  World {[ config_yml := YMap chain4_document ]} "/home/user" 7%nat.

Definition chain4_model : Model :=
  {| N_sites := 4; shape := [4%nat; 1%nat]; conserve := Some "Sz" |}.

(** A charge that is not a multiple of one half but within the tolerance of
    [math.isclose] of one: [0.5 + 2^-40]. *)
Definition q_near_half : Q := ((1 # 2) + (1 # 1099511627776))%Q.

(** * Stage 5 and further vocabulary *)

(** The exceptions of [dmrg_run]: those of the earlier stages (a YAML error
    as [DocumentIOError], [KeyError], [TypeError]), the missing file, and
    whatever the solver raises. *)
Inductive run_error : Type :=
| Raised (e : error)
| FileNotFoundError
| SolverError.

(** tenpy's side of stage 5: [tenpy.load_yaml_with_py_eval] on a file text
    ([None] is a text that does not parse) and [tenpy.run_simulation] called
    with the keyword arguments [kwargs], which runs on the world (it writes
    its result and its log) and returns ([true]) or raises ([false]); a run
    is taken to leave the arguments it was given as they are.  On a text
    that [yaml.safe_dump] wrote the loader reads the value dumped. *)
Class Solver (text G : Type) `{!PyYAML text} := {
  load_yaml_with_py_eval : text → option yaml;
  run_simulation : gmap string yaml → world text G → bool * world text G;
  load_yaml_with_py_eval_dump :
    ∀ v, load_yaml_with_py_eval (safe_dump v) = Some v
}.

Section Stage5.
Context {text G : Type} `{!PyYAML text} `{!Solver text G}.

(** [prefix + suffix] and [prefix + ".log"], then the message.  Both sums
    and the message are computed without an effect in between, and with a
    [prefix] or a [suffix] that is not a string one of the two sums raises
    [TypeError] (a sum of two numbers or two lists succeeds, but then
    [prefix + ".log"] raises). *)
Definition dmrg_run_message (prefix suffix : yaml) : run_error + TextContent :=
  match prefix, suffix with
  | YStr prefix, YStr suffix =>
      let result_path := prefix ++ suffix in
      let log_path := prefix ++ ".log" in
      inr ("The DMRG result is stored at " ++ result_path
             ++ ". The log is store at " ++ log_path ++ ".")
  | _, _ => inl (Raised TypeError)
  end.

(** [simulation_params["output_filename_params"][k]] *)
Definition output_name (simulation_params : gmap string yaml) (k : string)
    : result yaml :=
  match getitem (YMap simulation_params) "output_filename_params" with
  | Ok names => getitem names k
  | Raise e => Raise e
  end.

Definition dmrg_run (path : option string) (w : world text G)
    : (run_error + TextContent) * world text G :=
  let path := match path with
              | Some p => p
              | None => cwd w ++ "/config.yml"
              end in
  match files w !! path with
  | None => (inl FileNotFoundError, w)
  | Some t =>
      match load_yaml_with_py_eval t with
      | None => (inl (Raised DocumentIOError), w)
      | Some (YMap simulation_params) =>
          let '(returned, w) := run_simulation simulation_params w in
          if returned then
            match output_name simulation_params "prefix" with
            | Raise e => (inl (Raised e), w)
            | Ok prefix =>
                match output_name simulation_params "suffix" with
                | Raise e => (inl (Raised e), w)
                | Ok suffix => (dmrg_run_message prefix suffix, w)
                end
            end
          else (inl SolverError, w)
      | Some _ => (inl (Raised TypeError), w)
      end
  end.

End Stage5.

Section Vocabulary5.
Context {text G : Type} `{!PyYAML text}.

(** The entry [k] of the [model_params] persisted at [p]. *)
Definition param (w : world text G) (p k : string) : option yaml :=
  match section w p "model_params" with
  | Some (YMap mp) => mp !! k
  | _ => None
  end.

(** The entry [k] of the [initial_state_params] persisted at [p]. *)
Definition initial_state_param (w : world text G) (p k : string)
    : option yaml :=
  match section w p "initial_state_params" with
  | Some (YMap isp) => isp !! k
  | _ => None
  end.

(** The world in which stage 3 shuffles: the files of [w] and the random
    state [g]. *)
Definition shuffling (w : world text G) (g : G) : world text G :=
  World (files w) (cwd w) g.

End Vocabulary5.

(** The document stage 3 persists from [d]: the labels [l] in the shape
    [sh], with the other entries [isp] of [initial_state_params]. *)
Definition stage3_document (d isp : gmap string yaml) (sh : list nat)
    (l : list string) : gmap string yaml :=
  <["initial_state_params" :=
      YMap (<["product_state" := reshape_tolist sh l]>
              (<["method" := YStr "lat_product_state"]> isp))]> d.

(** A charge that passes the first check of stage 3. *)
Definition charge_passes (tot_charge : option Q) : Prop :=
  match tot_charge with
  | Some q => near_integer (2 * q)
  | None => True
  end.


(** The top-level sections that stage 4 sets. *)
Definition stage4_keys : list string :=
  ["simulation_class"; "algorithm_params"; "measure_initial";
   "connect_measurements"; "output_filename_params"].


(** A stand-in for the solver: it reads the YAML value the file holds, and
    a run returns when the arguments name a simulation class, leaving a
    result file, and raises otherwise. *)
#[export] Instance toy_solver : Solver yaml nat :=
  {| load_yaml_with_py_eval := Some;
     run_simulation := λ kwargs w,
       match kwargs !! "simulation_class" with
       | Some _ => (true, World (<["result.h5" := YStr "psi"]> (files w))
                            (cwd w) (rng w))
       | None => (false, w)
       end;
     load_yaml_with_py_eval_dump := λ _, eq_refl |}.

(** Files that hold a YAML value or, as [None], a text that does not
    parse. *)
#[export] Instance optional_text : PyYAML (option yaml) :=
  {| safe_dump := Some; safe_load := λ t, t; safe_load_dump := λ _, eq_refl |}.

(** A world whose document at the default path does not parse. *)
Definition w_broken : world (option yaml) nat :=
  World {[ "/home/user/config.yml" := None ]} "/home/user" 7%nat.

(** * Properties *)

Section Properties.
Context {text G : Type} `{!PyYAML text} `{!TenPy} `{!Random G}.

Local Abbreviation M := (M text G).
Local Abbreviation world := (world text G).

(** ** The monad *)

Lemma bind_ok {A B} (c : M A) (k : A → M B) w a w1 :
  c w = (Ok a, w1) → bind c k w = k a w1.
Proof. unfold bind. by intros ->. Qed.

Lemma bind_inv {A B} (c : M A) (k : A → M B) w r w' :
  bind c k w = (r, w') →
  (∃ e, c w = (Raise e, w') ∧ r = Raise e)
  ∨ (∃ a w1, c w = (Ok a, w1) ∧ k a w1 = (r, w')).
Proof.
  unfold bind. destruct (c w) as [[a|e] w1]; intros Hk.
  - right. by exists a, w1.
  - left. exists e. by simplify_eq.
Qed.

(** ** The document store *)

Lemma py_or_map m : py_or (YMap m) (YMap ∅) = YMap m.
Proof.
  unfold py_or; cbn. destruct (map_to_list m) eqn:E; [|done].
  apply map_to_list_empty_iff in E. by subst.
Qed.

Lemma dump_yaml_eq data p (w : world) : dump_yaml data p w = (Ok tt, written w p data).
Proof. done. Qed.

Lemma persisted_written (w : world) p v : persisted (written w p v) p = Some v.
Proof.
  unfold persisted, written; cbn. rewrite lookup_insert_eq; cbn.
  apply safe_load_dump.
Qed.

Lemma load_yaml_absent p (w : world) :
  files w !! p = None → load_yaml p w = (Ok (YMap ∅), written w p (YMap ∅)).
Proof. intros Hf. unfold load_yaml. by rewrite Hf. Qed.

Lemma load_yaml_present p (w : world) t :
  files w !! p = Some t →
  load_yaml p w = (match safe_load t with
                   | Some v => Ok (py_or v (YMap ∅))
                   | None => Raise DocumentIOError
                   end, w).
Proof. intros Hf. unfold load_yaml. rewrite Hf. by destruct (safe_load t). Qed.

(** Loading writes nothing but the empty document of a fresh path. *)
Lemma load_yaml_no_write p (w w' : world) r :
  load_yaml p w = (r, w') →
  no_write p w w' ∧ cwd w' = cwd w ∧ rng w' = rng w
  ∧ (files w !! p = None → r = Ok (YMap ∅)).
Proof.
  destruct (files w !! p) as [t|] eqn:Hf.
  - rewrite (load_yaml_present _ _ _ Hf). intros [= <- <-].
    split_and!; [by left | done | done | congruence].
  - rewrite (load_yaml_absent _ _ Hf). intros [= <- <-].
    split_and!; [by right | done..].
Qed.

Lemma load_after_dump v p (w : world) :
  load_yaml p (written w p v) = (Ok (py_or v (YMap ∅)), written w p v).
Proof.
  rewrite (load_yaml_present _ _ (safe_dump v)).
  - by rewrite safe_load_dump.
  - cbn. apply lookup_insert_eq.
Qed.

(** C8: a document (a mapping) that [dump_yaml] persists at a path is what
    [load_yaml] then returns from that path, and loading it writes
    nothing. *)
Theorem dump_yaml_load_yaml_roundtrip (m : gmap string yaml) (path : string)
    (w : world) :
  let w1 := (dump_yaml (YMap m) path w).2 in
  load_yaml path w1 = (Ok (YMap m), w1).
Proof.
  rewrite dump_yaml_eq. cbn. rewrite load_after_dump. by rewrite py_or_map.
Qed.

(** ** Stage 1 *)

(** Every run of stage 1: it raises having written nothing, or it wrote the
    document it loaded with the lattice put into [model_params]. *)
Lemma stage1_cases lt Lx Ly bc_x bc_y path (w w' : world) r :
  spinhalf_lattice_config lt Lx Ly bc_x bc_y path w = (r, w') →
  (is_ok r = false ∧ no_write (target path w) w w')
  ∨ (∃ d w1 mp,
       stage1_valid lt bc_x bc_y = true
       ∧ load_yaml (target path w) w = (Ok (YMap d), w1)
       ∧ submap d "model_params" = Some mp
       ∧ r = Ok (init_terms_source "SpinModel")
       ∧ w' = written w1 (target path w)
                (YMap (<["model_params" :=
                           YMap (lattice_params lt Lx Ly bc_x bc_y mp)]>
                         (<["model_class" := YStr "SpinModel"]> d)))).
Proof.
  set (p := target path w). intros Hrun. revert Hrun.
  unfold spinhalf_lattice_config, stage1_valid, lattice_params.
  destruct (str_in lt _ALLOWED_LATTICES_1D) eqn:H1;
    [|destruct (str_in lt _ALLOWED_LATTICES_2D) eqn:H2]; cbn;
    destruct (str_in bc_x _ALLOWED_BC) eqn:Hx; cbn;
    try destruct (opt_in bc_y _ALLOWED_BC) eqn:Hy;
    cbn; intros Hrun; try (left; simplify_eq; split; [done|by left]).
  all: fold (target path w) in Hrun; fold p in Hrun.
  all: apply bind_inv in Hrun as [(e & Hload & ->)|(data & w1 & Hload & Hrun)];
    [left; split; [done|]; exact (proj1 (load_yaml_no_write _ _ _ _ Hload))|].
  all: pose proof (load_yaml_no_write _ _ _ _ Hload) as (Hnw & _ & _ & _).
  all: destruct data as [| | | | | |d]; cbn in Hrun; try (left; by simplify_eq).
  all: rewrite lookup_insert_ne in Hrun by done.
  all: unfold submap.
  all: destruct (d !! "model_params") as [[| | | | | |mp]|] eqn:Hmp; cbn in Hrun;
     try (left; by simplify_eq).
  all: unfold ret in Hrun; simplify_eq.
  all: right; exists d, w1; rewrite Hmp; eexists; split_and!; [done..|].
  all: unfold written; by rewrite ?insert_insert_eq.
Qed.

(** Stage 1 on valid arguments and a loadable mapping succeeds. *)
Lemma stage1_run lt Lx Ly bc_x bc_y path (w w1 : world) d mp :
  stage1_valid lt bc_x bc_y = true →
  load_yaml (target path w) w = (Ok (YMap d), w1) →
  submap d "model_params" = Some mp →
  spinhalf_lattice_config lt Lx Ly bc_x bc_y path w
  = (Ok (init_terms_source "SpinModel"),
     written w1 (target path w)
       (YMap (<["model_params" := YMap (lattice_params lt Lx Ly bc_x bc_y mp)]>
                (<["model_class" := YStr "SpinModel"]> d)))).
Proof.
  intros Hv Hload Hmp.
  destruct (spinhalf_lattice_config lt Lx Ly bc_x bc_y path w) as [r w'] eqn:Hrun.
  destruct (stage1_cases _ _ _ _ _ _ _ _ _ Hrun)
    as [[Hr Hnw]|(d' & w1' & mp' & _ & Hload' & Hmp' & -> & ->)].
  - exfalso. revert Hrun Hr.
    unfold spinhalf_lattice_config, stage1_valid in *.
    destruct (str_in lt _ALLOWED_LATTICES_1D) eqn:H1;
      [|destruct (str_in lt _ALLOWED_LATTICES_2D) eqn:H2]; cbn in *;
      destruct (str_in bc_x _ALLOWED_BC) eqn:Hx; cbn in *; try done;
      try destruct (opt_in bc_y _ALLOWED_BC) eqn:Hy; cbn in *; try done.
    all: fold (target path w).
    all: rewrite (bind_ok _ _ _ _ _ Hload); cbn.
    all: rewrite lookup_insert_ne by done.
    all: unfold submap in Hmp.
    all: destruct (d !! "model_params") as [[| | | | | |mp0]|]; try done; cbn.
    all: unfold ret; by intros [= <- <-].
  - rewrite Hload in Hload'. injection Hload' as <- <-.
    rewrite Hmp in Hmp'. by injection Hmp' as <-.
Qed.

Lemma lattice_keys_of_lattice_params lt Lx Ly bc_x bc_y mp :
  lattice_keys_of (lattice_params lt Lx Ly bc_x bc_y mp) = expected_keys lt.
Proof.
  unfold lattice_keys_of, lattice_keys, expected_keys, lattice_params, has_key.
  destruct (str_in lt _ALLOWED_LATTICES_1D); cbn.
  all: repeat match goal with
         | |- context [bool_decide (is_Some ?x)] =>
             let o := fresh "o" in
             let E := fresh "E" in
             destruct (bool_decide (is_Some x)) eqn:E;
             [apply bool_decide_eq_true_1 in E
             |apply bool_decide_eq_false_1 in E; rewrite <- eq_None_not_Some in E];
             revert E; simplify_map_eq; intros E;
             try (by apply is_Some_None in E); try done
         end.
Qed.

Lemma section_written (w : world) p d k :
  section (written w p (YMap d)) p k = d !! k.
Proof. unfold section. by rewrite persisted_written. Qed.

Lemma stage1_ok_keys lt Lx Ly bc_x bc_y path (w w' : world) r :
  spinhalf_lattice_config lt Lx Ly bc_x bc_y path w = (Ok r, w') →
  persisted_lattice_keys w' (target path w) = Some (expected_keys lt)
  ∧ cwd w' = cwd w.
Proof.
  intros Hrun.
  destruct (stage1_cases _ _ _ _ _ _ _ _ _ Hrun)
    as [[Hr _]|(d & w1 & mp & _ & Hload & _ & _ & ->)]; [done|].
  split.
  - unfold persisted_lattice_keys. rewrite section_written, lookup_insert_eq.
    by rewrite lattice_keys_of_lattice_params.
  - cbn. by destruct (load_yaml_no_write _ _ _ _ Hload) as (_ & ? & _).
Qed.

(** C3: after a successful stage-1 call the persisted [model_params] has,
    of the lattice keys, exactly those of the dimension of the lattice type
    ([L], [bc_x] or [Lx], [Ly], [bc_x], [bc_y]), whatever the document held
    before; and a second call on the same path, with valid arguments of any
    dimension, succeeds and leaves exactly the keys of its own dimension. *)
Theorem stage1_dimension_keys lt Lx Ly bc_x bc_y path (w w1 : world) r :
  spinhalf_lattice_config lt Lx Ly bc_x bc_y path w = (Ok r, w1) →
  persisted_lattice_keys w1 (target path w) = Some (expected_keys lt)
  ∧ (∀ lt2 Lx2 Ly2 bc_x2 bc_y2,
       stage1_valid lt2 bc_x2 bc_y2 = true →
       is_ok (spinhalf_lattice_config lt2 Lx2 Ly2 bc_x2 bc_y2 path w1).1 = true
       ∧ persisted_lattice_keys
           (spinhalf_lattice_config lt2 Lx2 Ly2 bc_x2 bc_y2 path w1).2
           (target path w)
         = Some (expected_keys lt2)).
Proof.
  intros Hrun.
  destruct (stage1_ok_keys _ _ _ _ _ _ _ _ _ Hrun) as [Hk Hc].
  split; [done|]. intros lt2 Lx2 Ly2 bc_x2 bc_y2 Hv.
  assert (target path w1 = target path w) as Hp by (unfold target; by rewrite Hc).
  destruct (stage1_cases _ _ _ _ _ _ _ _ _ Hrun)
    as [[Hr _]|(d & w0 & mp & _ & _ & _ & _ & ->)]; [done|].
  erewrite stage1_run; [|done| |].
  - cbn [fst snd]. split; [done|]. rewrite Hp.
    unfold persisted_lattice_keys. rewrite section_written, lookup_insert_eq.
    by rewrite lattice_keys_of_lattice_params.
  - rewrite Hp, load_after_dump. by rewrite py_or_map.
  - unfold submap. by rewrite lookup_insert_eq.
Qed.

Lemma lattice_params_chain4 Ly bc_y :
  lattice_params "Chain" 4 Ly default_bc_x bc_y ∅ = chain4_params.
Proof. by vm_compute. Qed.

(** C6: stage 1 for a [Chain] of extent 4 with the default boundary
    conditions, on a path whose document is empty, succeeds and persists
    [model_params = {lattice: Chain, S: 0.5, bc_MPS: finite, L: 4,
    bc_x: open}]. *)
Theorem stage1_chain4_scenario (Ly : option Z) (path : option string)
    (w : world) :
  (load_yaml (target path w) w).1 = Ok (YMap ∅) →
  is_ok (spinhalf_lattice_config "Chain" 4 Ly default_bc_x default_bc_y path w).1
    = true
  ∧ section (spinhalf_lattice_config "Chain" 4 Ly default_bc_x default_bc_y path w).2
      (target path w) "model_params"
    = Some (YMap chain4_params).
Proof.
  destruct (load_yaml (target path w) w) as [r w1] eqn:Hload. cbn. intros ->.
  rewrite (stage1_run "Chain" 4 Ly default_bc_x default_bc_y path w w1 ∅ ∅
             eq_refl Hload eq_refl). cbn.
  split; [done|].
  rewrite section_written, lookup_insert_eq.
  by rewrite lattice_params_chain4.
Qed.

(** C9: for a 1-D lattice type stage 1 does not depend on [Ly] and [bc_y]:
    it runs as if both were [None], it never raises for the boundary
    condition when [bc_x] is valid, and the [model_params] it persists have
    neither [Ly] nor [bc_y]. *)
Theorem stage1_1d_ignores_secondary lt Lx Ly bc_x bc_y path (w : world) :
  lt ∈ _ALLOWED_LATTICES_1D →
  spinhalf_lattice_config lt Lx Ly bc_x bc_y path w
  = spinhalf_lattice_config lt Lx None bc_x None path w
  ∧ (bc_x ∈ _ALLOWED_BC →
     (spinhalf_lattice_config lt Lx Ly bc_x bc_y path w).1
     ≠ Raise InvalidBoundaryCondition)
  ∧ (is_ok (spinhalf_lattice_config lt Lx Ly bc_x bc_y path w).1 = true →
     ∃ mp,
       section (spinhalf_lattice_config lt Lx Ly bc_x bc_y path w).2
         (target path w) "model_params" = Some (YMap mp)
       ∧ mp !! "Ly" = None ∧ mp !! "bc_y" = None).
Proof.
  intros Hlt.
  assert (str_in lt _ALLOWED_LATTICES_1D = true) as H1
    by by apply bool_decide_eq_true_2.
  split_and!.
  - unfold spinhalf_lattice_config. by rewrite H1.
  - intros Hx Hr.
    assert (str_in bc_x _ALLOWED_BC = true) as Hbx
      by by apply bool_decide_eq_true_2.
    destruct (spinhalf_lattice_config lt Lx Ly bc_x bc_y path w)
      as [r w'] eqn:Hrun.
    cbn in Hr; subst r. revert Hrun.
    unfold spinhalf_lattice_config. rewrite H1; cbn. rewrite Hbx; cbn.
    fold (target path w). intros Hrun.
    apply bind_inv in Hrun as [(e & Hload & [= <-])|(data & w1 & Hload & Hrun)].
    + unfold load_yaml in Hload. repeat case_match; by simplify_eq.
    + destruct data as [| | | | | |d]; cbn in Hrun; try by simplify_eq.
      rewrite lookup_insert_ne in Hrun by done.
      destruct (d !! "model_params") as [[| | | | | |mp]|]; cbn in Hrun;
        by simplify_eq.
  - destruct (spinhalf_lattice_config lt Lx Ly bc_x bc_y path w)
      as [r w'] eqn:Hrun. cbn. intros Hr.
    destruct (stage1_cases _ _ _ _ _ _ _ _ _ Hrun)
      as [[Hr' _]|(d & w1 & mp & _ & _ & _ & _ & ->)]; [congruence|].
    eexists. rewrite section_written, lookup_insert_eq. split; [done|].
    unfold lattice_params. rewrite H1. by simplify_map_eq.
Qed.

(** ** Stage 2 *)

Lemma truthy_map_false m : truthy (YMap m) = false → m = ∅.
Proof.
  cbn. destruct (map_to_list m) eqn:E; [|done].
  intros _. by apply map_to_list_empty_iff.
Qed.

(** The sections of the document a stage loads are those persisted. *)
Lemma load_yaml_section p (w w1 : world) d k :
  load_yaml p w = (Ok (YMap d), w1) → section w p k = d !! k.
Proof.
  unfold section, persisted.
  destruct (files w !! p) as [t|] eqn:Hf.
  - rewrite (load_yaml_present _ _ _ Hf). cbn.
    destruct (safe_load t) as [v|]; [|done]. intros [= Hv _]. revert Hv.
    unfold py_or. destruct (truthy v) eqn:Ht.
    + by intros ->.
    + intros [= <-]. rewrite lookup_empty.
      destruct v; try done. by rewrite (truthy_map_false _ Ht).
  - rewrite (load_yaml_absent _ _ Hf). cbn. intros [= <- _]. by rewrite lookup_empty.
Qed.

Lemma no_write_section p (w w' : world) k :
  no_write p w w' → section w' p k = section w p k.
Proof.
  unfold section, persisted. intros [->|[Hf ->]]; [done|].
  rewrite Hf, lookup_insert_eq. cbn. by rewrite safe_load_dump, lookup_empty.
Qed.

Lemma merge_items_map items mp :
  merge_items items (YMap mp) = Ok (YMap (merged_params items mp)).
Proof.
  revert mp. induction items as [|[name val] items IH]; intros mp; cbn; [done|].
  by rewrite IH.
Qed.



(** Stage 2 on a loadable mapping: it writes, then constructs the model. *)
Lemma stage2_run params path (w w1 : world) d mp :
  load_yaml (target path w) w = (Ok (YMap d), w1) →
  submap d "model_params" = Some mp →
  spinhalf_model_config params path w
  = (stage2_result d (stage2_params params mp),
     written w1 (target path w)
       (YMap (<["model_params" := YMap (stage2_params params mp)]> d))).
Proof.
  intros Hload Hmp. unfold spinhalf_model_config. cbn.
  fold (target path w). rewrite (bind_ok _ _ _ _ _ Hload). cbn.
  unfold submap in Hmp. unfold stage2_result, stage2_params, written.
  destruct (d !! "model_params") as [[| | | | | |mp0]|]; try done; cbn.
  all: rewrite merge_items_map; cbn.
  all: rewrite ?lookup_insert_ne by done.
  all: rewrite ?insert_insert_eq.
  all: simplify_eq.
  all: destruct (d !! "model_class") as [cls|]; cbn;
    [destruct (construct cls _); cbn|]; done.
Qed.

(** C2, stage 2: when the document has no [model_class] or the model
    constructor rejects the merged parameters, the call raises after it has
    persisted them. *)
Theorem stage2_raises_after_write params path (w w1 : world) d mp :
  load_yaml (target path w) w = (Ok (YMap d), w1) →
  submap d "model_params" = Some mp →
  (d !! "model_class" = None
   ∨ ∃ cls, d !! "model_class" = Some cls
            ∧ construct cls (YMap (stage2_params params mp)) = None) →
  (∃ e, (spinhalf_model_config params path w).1 = Raise e
        ∧ (e = KeyError "model_class" ∨ e = ModelConstructionError))
  ∧ section (spinhalf_model_config params path w).2 (target path w)
      "model_params"
    = Some (YMap (stage2_params params mp)).
Proof.
  intros Hload Hmp Hbad. rewrite (stage2_run _ _ _ _ _ _ Hload Hmp). cbn.
  split; [|by rewrite section_written, lookup_insert_eq].
  unfold stage2_result.
  destruct Hbad as [->|(cls & -> & ->)]; eexists; split; eauto.
Qed.

(** ** Stage 4 *)

(** C7: stage 4 checks neither of its inputs: for all integers [chi_max]
    and [max_sweeps], positive or not, on a document that loads as a mapping
    it succeeds and persists the solver section with the fixed solver
    identifier, tolerance and mixer default, the fixed measurements and the
    file name convention. *)
Theorem stage4_writes_unchecked (chi_max max_sweeps : Z) path (w w1 : world) d :
  load_yaml (target path w) w = (Ok (YMap d), w1) →
  dmrg_and_measu_config chi_max max_sweeps path w
  = (Ok "All required configurations are generated. Ready for performing computations! ",
     written w1 (target path w) (YMap (stage4_document chi_max max_sweeps d))).
Proof.
  intros Hload. unfold dmrg_and_measu_config. cbn. fold (target path w).
  by rewrite (bind_ok _ _ _ _ _ Hload).
Qed.

(** ** Numbers *)

(** Linear arithmetic over [Q] with halves. *)
Ltac qlra := unfold Qdiv in *; change (/ 2)%Q with (1 # 2)%Q in *; lra.

Lemma int_nonneg x : (0 <= x)%Q → int x = Qfloor x.
Proof.
  destruct x as [n d]. unfold Qle, int, Qfloor; cbn. intros Hn.
  apply Z.quot_div_nonneg; lia.
Qed.

Lemma int_opp x : int (- x) = (- int x)%Z.
Proof. destruct x as [n d]. unfold int; cbn. apply Z.quot_opp_l. lia. Qed.

Lemma int_nonpos x : (x <= 0)%Q → int x = (- Qfloor (- x))%Z.
Proof.
  intros Hx. rewrite <- (int_nonneg (- x)) by lra.
  rewrite int_opp. lia.
Qed.

(** The integer part of an integer. *)
Lemma int_integer x k : (x == inject_Z k)%Q → int x = k.
Proof.
  intros Hx. destruct (Qlt_le_dec x 0) as [Hneg|Hpos].
  - rewrite int_nonpos by lra.
    assert (- x == inject_Z (- k))%Q as -> by (rewrite inject_Z_opp; lra).
    rewrite Qfloor_Z. lia.
  - rewrite int_nonneg by done. rewrite Hx. apply Qfloor_Z.
Qed.

Lemma isclose_integer x k : (x == inject_Z k)%Q → isclose x (inject_Z (int x)) = true.
Proof.
  intros Hx. unfold isclose. rewrite (int_integer x k Hx).
  by rewrite (Qeq_eq_bool _ _ Hx).
Qed.

Lemma isclose_spec a b :
  isclose a b = true ↔
  (a == b ∨ Qabs (b - a) <= Qabs (rel_tol * b)
   ∨ Qabs (b - a) <= Qabs (rel_tol * a) ∨ Qabs (b - a) <= abs_tol)%Q.
Proof.
  unfold isclose. destruct (Qeq_bool a b) eqn:E.
  - apply Qeq_bool_iff in E. tauto.
  - apply Qeq_bool_neq in E.
    rewrite !orb_true_iff, !Qle_bool_iff. tauto.
Qed.

(** [math.isclose(x, int(x))] is [near_integer x]. *)
Lemma isclose_int x : isclose x (inject_Z (int x)) = true ↔ near_integer x.
Proof.
  rewrite isclose_spec. unfold near_integer, rel_tol, abs_tol.
  pose proof (Qfloor_le (Qabs x)) as Hfl.
  assert (0 <= inject_Z (Qfloor (Qabs x)))%Q as Hf0.
  { change (inject_Z 0 <= inject_Z (Qfloor (Qabs x)))%Q.
    rewrite <- Zle_Qle. change 0%Z with (Qfloor 0).
    apply Qfloor_resp_le, Qabs_nonneg. }
  destruct (Qlt_le_dec x 0) as [Hneg|Hpos].
  - rewrite int_nonpos by lra.
    assert (Qabs x == - x)%Q as Ha by (apply Qabs_neg; lra).
    assert (Qfloor (Qabs x) = Qfloor (- x)) as Hfx by by rewrite Ha.
    rewrite Hfx in *. rewrite Ha in *. rewrite inject_Z_opp.
    set (f := inject_Z (Qfloor (- x))) in *.
    rewrite (Qabs_pos (- f - x)) by lra.
    rewrite (Qabs_neg ((1 # 1000000000) * - f)) by lra.
    rewrite (Qabs_neg ((1 # 1000000000) * x)) by lra.
    split; [intros [?|[?|[?|?]]]|intros ?]; lra.
  - rewrite int_nonneg by done.
    assert (Qabs x == x)%Q as Ha by by apply Qabs_pos.
    assert (Qfloor (Qabs x) = Qfloor x) as Hfx by by rewrite Ha.
    rewrite Hfx in *. rewrite Ha in *.
    set (f := inject_Z (Qfloor x)) in *.
    rewrite (Qabs_neg (f - x)) by lra.
    rewrite (Qabs_pos ((1 # 1000000000) * f)) by lra.
    rewrite (Qabs_pos ((1 # 1000000000) * x)) by lra.
    split; [intros [?|[?|[?|?]]]|intros ?]; lra.
Qed.

(** ** Arrays *)

Lemma length_chunks {A} size count (l : list A) :
  length (chunks size count l) = count.
Proof. revert l. induction count as [|c IH]; intros l; cbn; [done|]. by rewrite IH. Qed.

Lemma chunks_sizes {A} size count (l : list A) :
  length l = (count * size)%nat →
  Forall (λ c, length c = size) (chunks size count l).
Proof.
  revert l. induction count as [|c IH]; intros l Hl; cbn; [done|].
  constructor.
  - rewrite length_take. lia.
  - apply IH. rewrite length_drop. lia.
Qed.

Lemma concat_chunks {A} size count (l : list A) :
  length l = (count * size)%nat → List.concat (chunks size count l) = l.
Proof.
  revert l. induction count as [|c IH]; intros l Hl; cbn.
  - by destruct l.
  - rewrite IH by (rewrite length_drop; lia). apply take_drop.
Qed.

Lemma reshape_tolist_has_shape sh l :
  length l = prod_shape sh → has_shape sh (reshape_tolist sh l).
Proof.
  revert l. induction sh as [|d sh IH]; intros l Hl; cbn.
  - by eexists.
  - eexists. split; [done|]. cbn in Hl. split.
    + by rewrite length_map, length_chunks.
    + apply Forall_map. eapply Forall_impl; [by apply chunks_sizes|].
      intros c Hc. by apply IH.
Qed.

Lemma labels_reshape_tolist sh l :
  length l = prod_shape sh → labels (reshape_tolist sh l) = l.
Proof.
  revert l. induction sh as [|d sh IH]; intros l Hl; cbn in *.
  - by destruct l as [|s [|??]].
  - rewrite List.map_map.
    rewrite <- (concat_chunks (prod_shape sh) d l) at 2 by done.
    f_equal. rewrite <- (List.map_id (chunks _ _ _)) at 2.
    apply List.map_ext_in. intros c Hc. apply IH.
    pose proof (chunks_sizes (prod_shape sh) d l Hl) as Hall.
    rewrite Forall_forall in Hall. by apply Hall, list_elem_of_In.
Qed.

Lemma reshape_ok sh l :
  length l = prod_shape sh → reshape sh l = Ok (reshape_tolist sh l).
Proof. intros Hl. unfold reshape. by rewrite Hl, Nat.eqb_refl. Qed.


Lemma count_app x l1 l2 : count x (l1 ++ l2) = (count x l1 + count x l2)%nat.
Proof. unfold count. by rewrite filter_app, length_app. Qed.

Lemma count_repeat x y n :
  count x (repeat y n) = if decide (y = x) then n else 0%nat.
Proof.
  unfold count. induction n as [|n IH]; cbn [repeat]; [by case_decide|].
  rewrite filter_cons. case_decide; cbn [length]; by rewrite IH.
Qed.

Lemma count_perm x l1 l2 : l1 ≡ₚ l2 → count x l1 = count x l2.
Proof. unfold count. by intros ->. Qed.

(** The counts of the two labels in [["up"] * a + ["down"] * b]. *)
Lemma count_up_down a b :
  count "up" (repeat "up" a ++ repeat "down" b) = a
  ∧ count "down" (repeat "up" a ++ repeat "down" b) = b.
Proof.
  rewrite !count_app, !count_repeat.
  repeat case_decide; try done; lia.
Qed.

(** ** Stage 3 *)

Lemma stage3_check_fails q path (w : world) :
  isclose (2 * q) (inject_Z (int (2 * q))) = false →
  spinhalf_initial_state (Some q) path w = (Raise InvalidCharge, w).
Proof. intros Hq. unfold spinhalf_initial_state. by rewrite Hq. Qed.

(** Only the check of the charge raises [InvalidCharge]. *)
Lemma stage3_check_passes q path (w w' : world) r :
  isclose (2 * q) (inject_Z (int (2 * q))) = true →
  spinhalf_initial_state (Some q) path w = (r, w') →
  r ≠ Raise InvalidCharge.
Proof.
  intros Hq. unfold spinhalf_initial_state. rewrite Hq.
  cbn [negb bind ret raise lift resolve].
  unfold bind, lift, ret, raise, get, copy, getitem, setdefault, setitem,
    reshape, np_random_shuffle, dump_yaml, write_file, load_yaml.
  intros Hrun Hr. subst r.
  repeat (case_match; simplify_eq/=).
Qed.

Lemma np_random_shuffle_eq l (w : world) :
  np_random_shuffle l w
  = (Ok (shuffle l (rng w)).1, World (files w) (cwd w) (shuffle l (rng w)).2).
Proof. unfold np_random_shuffle. by destruct (shuffle l (rng w)). Qed.

(** Runs stage 3 on a valid charge up to the occupation counts. *)
Ltac stage3_to_counts path w Hq Hload Hcls Hcopy Hcons Hsupp :=
  unfold spinhalf_initial_state; rewrite Hq;
  cbn [negb bind ret raise lift resolve];
  match goal with |- context [load_yaml ?p] => change p with (target path w) end;
  rewrite (bind_ok _ _ _ _ _ Hload); cbn [bind lift get]; rewrite Hcopy;
  cbn [getitem]; rewrite Hcls;
  unfold bind at 1; rewrite Hcons; cbn [ret bind]; rewrite Hsupp;
  cbn [negb bind ret].


(** Stage 3 once the counts passed the check: the world after the shuffle,
    then the reshape and the write. *)
Lemma stage3_run q path (w : world) d m :
  model_at w (target path w) d m →
  conserve_supported (conserve m) = true →
  isclose (2 * q) (inject_Z (int (2 * q))) = true →
  isclose (n_up_of q (N_sites m)) (inject_Z (int (n_up_of q (N_sites m))))
  && isclose (n_dn_of q (N_sites m)) (inject_Z (int (n_dn_of q (N_sites m))))
  = true →
  let init := (repeat "up" (Z.to_nat (int (n_up_of q (N_sites m))))
               ++ repeat "down" (Z.to_nat (int (n_dn_of q (N_sites m)))))%list in
  let w1 := World (files w) (cwd w) (shuffle init (rng w)).2 in
  spinhalf_initial_state (Some q) path w
  = match reshape (shape m) (shuffle init (rng w)).1 with
    | Raise e => (Raise e, w1)
    | Ok ps =>
        match submap d "initial_state_params" with
        | None => (Raise TypeError, w1)
        | Some isp =>
            (Ok "The DMRG initial state is successfully generated! We should then set the DMRG algorithm parameters and measurement parameters. ",
             written w1 (target path w)
               (YMap (<["initial_state_params" :=
                          YMap (<["product_state" := ps]>
                                  (<["method" := YStr "lat_product_state"]> isp))]>
                        d)))
        end
    end.
Proof.
  intros (Hload & cls & mp & Hcls & Hcopy & Hcons) Hsupp Hq Hn init w1.
  unfold n_up_of, n_dn_of in *.
  stage3_to_counts path w Hq Hload Hcls Hcopy Hcons Hsupp.
  rewrite Hn. cbn [negb bind ret].
  fold init. rewrite (bind_ok _ _ _ _ _ (np_random_shuffle_eq _ _)). fold w1.
  cbn [bind lift].
  destruct (reshape (shape m) (shuffle init (rng w)).1) as [ps|e]; [|done].
  unfold submap. cbn [setdefault].
  destruct (d !! "initial_state_params") as [[| | | | | |isp]|]; try done.
  cbn. unfold written. cbn. by rewrite insert_insert_eq.
Qed.

(** C5: stage 3 raises [InvalidCharge] exactly for the charges [q] whose
    double is not within the tolerance of [math.isclose] above an integer
    ([|2q| - floor |2q| > 1e-9 * |2q|], as for [q = 0.3]), and then it has
    touched no file, so [initial_state_params] is as before. *)
Theorem stage3_invalid_charge q path (w : world) :
  ((spinhalf_initial_state (Some q) path w).1 = Raise InvalidCharge
   ↔ ¬ near_integer (2 * q))
  ∧ (¬ near_integer (2 * q) →
     spinhalf_initial_state (Some q) path w = (Raise InvalidCharge, w)).
Proof.
  destruct (isclose (2 * q) (inject_Z (int (2 * q)))) eqn:Hq.
  - assert (near_integer (2 * q)) as Hnear by by apply isclose_int.
    split; [|done]. split; [|done]. intros Hr. exfalso.
    destruct (spinhalf_initial_state (Some q) path w) as [r w'] eqn:Hrun.
    by apply (stage3_check_passes _ _ _ _ _ Hq Hrun).
  - assert (¬ near_integer (2 * q)) as Hfar.
    { rewrite <- isclose_int. by rewrite Hq. }
    rewrite (stage3_check_fails _ _ _ Hq). by split.
Qed.

Lemma counts_sum q n (a b : Z) :
  (n_up_of q n == inject_Z a)%Q → (n_dn_of q n == inject_Z b)%Q →
  (a + b = Z.of_nat n)%Z.
Proof.
  unfold n_up_of, n_dn_of. intros Ha Hb.
  apply inject_Z_injective. rewrite inject_Z_plus. qlra.
Qed.


(** C4: with the model built and its conservation law supported, for a
    charge [q] that is a multiple of one half with [q + N/2] and [N/2 - q]
    both non-negative integers, stage 3 succeeds and persists a
    [product_state] of the shape of the lattice that holds exactly
    [q + N/2] labels [up] and [N/2 - q] labels [down], [N] labels in all;
    for [q = 1] and [N = 4] these are four labels, three [up] and one
    [down]. *)
Theorem stage3_valid_charge q path (w : world) d m isp (k : Z) (a b : nat) :
  model_at w (target path w) d m →
  conserve_supported (conserve m) = true →
  submap d "initial_state_params" = Some isp →
  (q == inject_Z k / 2)%Q →
  (n_up_of q (N_sites m) == inject_Z (Z.of_nat a))%Q →
  (n_dn_of q (N_sites m) == inject_Z (Z.of_nat b))%Q →
  ∃ ps,
    is_ok (spinhalf_initial_state (Some q) path w).1 = true
    ∧ section (spinhalf_initial_state (Some q) path w).2 (target path w)
        "initial_state_params"
      = Some (YMap (<["product_state" := ps]>
                      (<["method" := YStr "lat_product_state"]> isp)))
    ∧ has_shape (shape m) ps
    ∧ count "up" (labels ps) = a
    ∧ count "down" (labels ps) = b
    ∧ (a + b)%nat = N_sites m
    ∧ length (labels ps) = N_sites m
    ∧ ((q == 1)%Q → N_sites m = 4%nat → a = 3%nat ∧ b = 1%nat).
Proof.
  intros Hm Hsupp Hisp Hk Ha Hb.
  assert (isclose (2 * q) (inject_Z (int (2 * q))) = true) as Hq.
  { apply (isclose_integer _ k). qlra. }
  assert (isclose (n_up_of q (N_sites m)) (inject_Z (int (n_up_of q (N_sites m))))
          && isclose (n_dn_of q (N_sites m)) (inject_Z (int (n_dn_of q (N_sites m))))
          = true) as Hn.
  { by rewrite (isclose_integer _ _ Ha), (isclose_integer _ _ Hb). }
  pose proof (stage3_run _ _ _ _ _ Hm Hsupp Hq Hn) as Hrun. cbv zeta in Hrun.
  rewrite (int_integer _ _ Ha), (int_integer _ _ Hb), !Nat2Z.id in Hrun.
  pose proof (counts_sum _ _ _ _ Ha Hb) as Hsum.
  assert ((a + b)%nat = N_sites m) as Hab by lia.
  destruct Hm as (_ & cls & mp & _ & _ & Hcons).
  set (init := (repeat "up" a ++ repeat "down" b)%list) in *.
  pose proof (shuffle_perm init (rng w)) as Hperm.
  assert (length (shuffle init (rng w)).1 = prod_shape (shape m)) as Hlen.
  { rewrite (Permutation_length Hperm). unfold init.
    rewrite length_app, !repeat_length.
    by rewrite <- (construct_sites _ _ _ Hcons). }
  rewrite (reshape_ok _ _ Hlen), Hisp in Hrun.
  exists (reshape_tolist (shape m) (shuffle init (rng w)).1).
  rewrite Hrun. cbn [fst snd].
  rewrite section_written, lookup_insert_eq, (labels_reshape_tolist _ _ Hlen).
  rewrite !(count_perm _ _ _ Hperm).
  destruct (count_up_down a b) as [Hup Hdn].
  split_and!; try done.
  - by apply reshape_tolist_has_shape.
  - rewrite Hlen. symmetry. by apply (construct_sites _ _ _ Hcons).
  - intros Hq1 HN. unfold n_up_of in Ha. rewrite HN, Hq1 in Ha.
    assert (inject_Z (Z.of_nat a) == inject_Z 3)%Q as Ha3 by (rewrite <- Ha; reflexivity).
    apply (proj1 (inject_Z_injective _ _)) in Ha3. lia.
Qed.

(** ** Failures before the write *)

(** Stage 1 writes nothing when it raises. *)
Lemma stage1_failure_no_write lt Lx Ly bc_x bc_y path (w w' : world) r :
  spinhalf_lattice_config lt Lx Ly bc_x bc_y path w = (r, w') →
  is_ok r = false → no_write (target path w) w w'.
Proof.
  intros Hrun Hr.
  destruct (stage1_cases _ _ _ _ _ _ _ _ _ Hrun)
    as [[_ Hnw]|(d & w1 & mp & _ & _ & _ & -> & _)]; done.
Qed.

(** Stage 3 writes nothing when it raises. *)
Lemma stage3_failure_no_write tot_charge path (w w' : world) r :
  spinhalf_initial_state tot_charge path w = (r, w') →
  is_ok r = false → no_write (target path w) w w'.
Proof.
  unfold spinhalf_initial_state, no_write.
  unfold bind, lift, ret, raise, resolve, get, copy, getitem, setdefault,
    setitem, reshape, np_random_shuffle, np_random_randint, dump_yaml,
    write_file, load_yaml, bind, ret.
  fold (target path w).
  intros Hrun Hr.
  repeat (case_match; simplify_eq/=); try done; try by left.
  all: right; by split.
Qed.

(** Stage 4 raises only for a document that does not load as a mapping, and
    then it has written nothing. *)
Lemma stage4_failure_no_write chi_max max_sweeps path (w w' : world) r :
  dmrg_and_measu_config chi_max max_sweeps path w = (r, w') →
  is_ok r = false → no_write (target path w) w w'.
Proof.
  unfold dmrg_and_measu_config. cbn. fold (target path w). intros Hrun Hr.
  apply bind_inv in Hrun as [(e & Hload & ->)|(data & w1 & Hload & Hrun)].
  - exact (proj1 (load_yaml_no_write _ _ _ _ Hload)).
  - pose proof (load_yaml_no_write _ _ _ _ Hload) as (Hnw & _ & _ & _).
    destruct data; cbn in Hrun; unfold ret in Hrun; by simplify_eq.
Qed.

End Properties.

(** * The statements on concrete inputs *)

(** [w_chain4] is what stage 1 leaves for a chain of four sites. *)
Lemma w_chain4_stage1 :
  spinhalf_lattice_config "Chain" 4 None default_bc_x default_bc_y None w_empty
  = (Ok (init_terms_source "SpinModel"), w_chain4).
Proof. by vm_compute. Qed.

Lemma chain4_model_at : model_at w_chain4 config_yml chain4_document chain4_model.
Proof.
  split; [by vm_compute|].
  exists (YStr "SpinModel"), (YMap chain4_params). by vm_compute.
Qed.

(** A square lattice, then a chain, configured at the same path. *)
Lemma stage1_dimension_keys_witness :
  let w1 := (spinhalf_lattice_config "Square" 4 (Some 2%Z) "open" (Some "periodic")
               None w_empty).2 in
  let w2 := (spinhalf_lattice_config "Chain" 4 None "open" None None w1).2 in
  persisted_lattice_keys w1 config_yml = Some ["Lx"; "Ly"; "bc_x"; "bc_y"]
  ∧ is_ok (spinhalf_lattice_config "Chain" 4 None "open" None None w1).1 = true
  ∧ persisted_lattice_keys w2 config_yml = Some ["L"; "bc_x"].
Proof.
  intros w1 w2.
  destruct (stage1_dimension_keys "Square" 4 (Some 2%Z) "open" (Some "periodic")
              None w_empty w1 (init_terms_source "SpinModel"))
    as [Hkeys Hnext].
  - by vm_compute.
  - split; [exact Hkeys|].
    exact (Hnext "Chain" 4%Z None "open" None eq_refl).
Defined.

(** The scenario in the world without files. *)
Lemma stage1_chain4_scenario_witness :
  is_ok (spinhalf_lattice_config "Chain" 4 None default_bc_x default_bc_y
           None w_empty).1 = true
  ∧ section (spinhalf_lattice_config "Chain" 4 None default_bc_x default_bc_y
                None w_empty).2 config_yml "model_params"
    = Some (YMap chain4_params).
Proof.
  apply (stage1_chain4_scenario None None w_empty). by vm_compute.
Defined.

(** A chain configured with [Ly = 7] and [bc_y = "garbage"]: the call
    succeeds. *)
Lemma stage1_1d_ignores_secondary_witness :
  let run := spinhalf_lattice_config "Chain" 4 (Some 7%Z) "open" (Some "garbage")
               None w_empty in
  is_ok run.1 = true
  ∧ run = spinhalf_lattice_config "Chain" 4 None "open" None None w_empty
  ∧ ("open" ∈ _ALLOWED_BC → run.1 ≠ Raise InvalidBoundaryCondition)
  ∧ (is_ok run.1 = true →
     ∃ mp, section run.2 config_yml "model_params" = Some (YMap mp)
           ∧ mp !! "Ly" = None ∧ mp !! "bc_y" = None).
Proof.
  split; [by vm_compute|].
  apply (stage1_1d_ignores_secondary "Chain" 4 (Some 7%Z) "open" (Some "garbage")
           None w_empty).
  unfold _ALLOWED_LATTICES_1D. constructor.
Defined.


(** Stage 2 on a path without a file: the document has no [model_class], the
    call raises [KeyError], and the merged parameters are in the file. *)
Lemma stage2_raises_after_write_witness :
  (∃ e, (spinhalf_model_config [("Jz", YFloat 1)] None w_empty).1 = Raise e
        ∧ (e = KeyError "model_class" ∨ e = ModelConstructionError))
  ∧ section (spinhalf_model_config [("Jz", YFloat 1)] None w_empty).2
      config_yml "model_params"
    = Some (YMap (<["conserve" := YStr "best"]> {[ "Jz" := YFloat 1 ]})).
Proof.
  apply (stage2_raises_after_write [("Jz", YFloat 1)] None w_empty
           (written w_empty config_yml (YMap ∅)) ∅ ∅).
  - by vm_compute.
  - by vm_compute.
  - left. by vm_compute.
Defined.

(** Stage 2 after stage 1 with a lattice tenpy does not know: the call
    raises, and the document now names that lattice. *)
Example stage2_rejected_lattice_persisted :
  let run := spinhalf_model_config [("lattice", YStr "NoSuchLattice")] None
               w_chain4 in
  run.1 = Raise ModelConstructionError
  ∧ section run.2 config_yml "model_params"
    = Some (YMap (<["conserve" := YStr "best"]>
                    (<["lattice" := YStr "NoSuchLattice"]> chain4_params))).
Proof. by vm_compute. Qed.

(** Stage 4 with [chi_max = 0] and [max_sweeps = -1]. *)
Lemma stage4_writes_unchecked_witness :
  dmrg_and_measu_config 0 (-1) None w_empty
  = (Ok "All required configurations are generated. Ready for performing computations! ",
     written (written w_empty config_yml (YMap ∅)) config_yml
       (YMap (stage4_document 0 (-1) ∅))).
Proof.
  apply (stage4_writes_unchecked 0 (-1) None w_empty
           (written w_empty config_yml (YMap ∅)) ∅).
  by vm_compute.
Defined.

(** C7 as stated fails: a call with [chi_max = 0] and [max_sweeps = -1]
    succeeds. *)
Lemma stage4_positivity_counterexample :
  ¬ (∀ (chi_max max_sweeps : Z) (path : option string) (w : world yaml nat),
       (chi_max <= 0 ∨ max_sweeps <= 0)%Z →
       is_ok (dmrg_and_measu_config chi_max max_sweeps path w).1 = false).
Proof.
  intros Hclaim.
  specialize (Hclaim 0%Z (-1)%Z None w_empty (or_introl (Z.le_refl 0))).
  by vm_compute in Hclaim.
Qed.

(** Decides a comparison of two rational constants. *)
Ltac qcompute :=
  vm_compute;
  solve [ reflexivity | discriminate
        | let H := fresh in intros H; apply H; reflexivity ].

(** Refutes an equation between a rational constant and an unknown
    integer. *)
Ltac qrefute := unfold n_up_of, n_dn_of, Qeq; cbn; lia.

(** The charge [0.3]. *)
Lemma stage3_invalid_charge_witness :
  spinhalf_initial_state (Some (3 # 10)%Q) None w_chain4
  = (Raise InvalidCharge, w_chain4).
Proof.
  apply (proj2 (stage3_invalid_charge (3 # 10)%Q None w_chain4)). qcompute.
Defined.

(** C5 as stated fails: [0.5 + 2^-40] is not a multiple of one half, and
    stage 3 does not raise [InvalidCharge] for it (on the chain of four
    sites it raises [InconsistentCharge]). *)
Lemma stage3_invalid_charge_counterexample :
  ¬ (∀ (q : Q) (path : option string) (w : world yaml nat),
       (¬ ∃ k : Z, (q == inject_Z k / 2)%Q) →
       (spinhalf_initial_state (Some q) path w).1 = Raise InvalidCharge).
Proof.
  intros Hclaim. specialize (Hclaim q_near_half None w_chain4).
  assert (¬ ∃ k : Z, (q_near_half == inject_Z k / 2)%Q) as Hq.
  { intros [k Hk]. revert Hk. unfold q_near_half. qrefute. }
  specialize (Hclaim Hq). by vm_compute in Hclaim.
Qed.



(** The charge [1] on four sites. *)
Lemma stage3_valid_charge_witness :
  ∃ ps,
    is_ok (spinhalf_initial_state (Some 1%Q) None w_chain4).1 = true
    ∧ section (spinhalf_initial_state (Some 1%Q) None w_chain4).2 config_yml
        "initial_state_params"
      = Some (YMap (<["product_state" := ps]>
                      {[ "method" := YStr "lat_product_state" ]}))
    ∧ has_shape [4%nat; 1%nat] ps
    ∧ count "up" (labels ps) = 3%nat
    ∧ count "down" (labels ps) = 1%nat
    ∧ (3 + 1)%nat = 4%nat
    ∧ length (labels ps) = 4%nat
    ∧ ((1 == 1)%Q → 4%nat = 4%nat → 3%nat = 3%nat ∧ 1%nat = 1%nat).
Proof.
  apply (stage3_valid_charge 1%Q None w_chain4 chain4_document chain4_model
           ∅ 2 3 1 chain4_model_at eq_refl).
  - by vm_compute.
  - qcompute.
  - qcompute.
  - qcompute.
Defined.

(** The end-to-end scenario run through: the [product_state] persisted for
    charge 1 on the chain of four sites. *)
Example chain4_charge1_product_state :
  (spinhalf_initial_state (Some 1%Q) None w_chain4).1
  = Ok "The DMRG initial state is successfully generated! We should then set the DMRG algorithm parameters and measurement parameters. "
  ∧ section (spinhalf_initial_state (Some 1%Q) None w_chain4).2 config_yml
      "initial_state_params"
    = Some (YMap (<["product_state" :=
                      YList [YList [YStr "up"]; YList [YStr "up"];
                             YList [YStr "up"]; YList [YStr "down"]]]>
                    {[ "method" := YStr "lat_product_state" ]})).
Proof. by vm_compute. Qed.

(** Stage 3 on the chain of four sites for the charges discussed above. *)
Example chain4_charge_errors :
  (spinhalf_initial_state (Some (3 # 10)%Q) None w_chain4).1 = Raise InvalidCharge
  ∧ (spinhalf_initial_state (Some (5 # 2)%Q) None w_chain4).1
    = Raise InconsistentCharge
  ∧ (spinhalf_initial_state (Some q_near_half) None w_chain4).1
    = Raise InconsistentCharge
  ∧ (spinhalf_initial_state (Some (-3)%Q) None w_chain4).1 = Raise NumpyValueError.
Proof. by vm_compute. Qed.



(** * Further properties of the pipeline *)

Section MoreProperties.
Context {text G : Type} `{!PyYAML text} `{!TenPy} `{!Random G}.

Local Abbreviation world := (world text G).

(** ** The document store *)


(** X2: [load_yaml] never changes a file that exists, whatever it holds, and
    what it returns is the empty mapping or a value that is true in Python:
    a document that is [null], [0], [""] or [[]] reads as [{}]. *)
Theorem load_yaml_existing p (w w' : world) t r :
  files w !! p = Some t →
  load_yaml p w = (r, w') →
  w' = w
  ∧ (∀ v, r = Ok v → v = YMap ∅ ∨ truthy v = true)
  ∧ (r = Raise DocumentIOError ↔ safe_load t = None).
Proof.
  intros Hf. rewrite (load_yaml_present _ _ _ Hf). intros [= <- <-].
  split; [done|]. destruct (safe_load t) as [v0|]; split.
  - intros v [= <-]. unfold py_or. destruct (truthy v0) eqn:Ht; auto.
  - split; intros [=].
  - intros v [=].
  - done.
Qed.

(** ** Paths *)





(** ** Stage 3 *)

Lemma stage3_check tot_charge (w : world) :
  charge_passes tot_charge →
  match tot_charge with
  | Some q =>
      if negb (isclose (2 * q) (inject_Z (int (2 * q))))
      then raise InvalidCharge else ret ()
  | None => ret ()
  end w = (Ok (), w).
Proof.
  destruct tot_charge as [q|]; [|done]. cbn. intros Hq.
  apply isclose_int in Hq. by rewrite Hq.
Qed.

(** X3: once the charge has passed its check, stage 3 reports what is wrong
    with the document before it looks at the counts, and writes nothing:
    [KeyError] for a document without [model_class] (stage 1 was not run),
    [ModelConstructionError] when tenpy rejects the parameters, and
    [UnsupportedConservationLaw] for a law other than [Sz] or none. *)
Theorem stage3_document_errors tot_charge path (w w1 : world) d mp :
  charge_passes tot_charge →
  load_yaml (target path w) w = (Ok (YMap d), w1) →
  copy (default (YMap ∅) (d !! "model_params")) = Ok mp →
  no_write (target path w) w w1
  ∧ (d !! "model_class" = None →
     spinhalf_initial_state tot_charge path w
     = (Raise (KeyError "model_class"), w1))
  ∧ (∀ cls, d !! "model_class" = Some cls → construct cls mp = None →
     spinhalf_initial_state tot_charge path w
     = (Raise ModelConstructionError, w1))
  ∧ (∀ cls m, d !! "model_class" = Some cls → construct cls mp = Some m →
     conserve_supported (conserve m) = false →
     spinhalf_initial_state tot_charge path w
     = (Raise UnsupportedConservationLaw, w1)).
Proof.
  intros Hq Hload Hcopy.
  split; [exact (proj1 (load_yaml_no_write _ _ _ _ Hload))|].
  split_and!; [intros Hcls|intros cls Hcls Hcons|intros cls m Hcls Hcons Hsupp].
  all: unfold spinhalf_initial_state.
  all: rewrite (bind_ok _ _ _ _ _ (stage3_check _ _ Hq)).
  all: cbn [bind resolve]; fold (target path w).
  all: rewrite (bind_ok _ _ _ _ _ Hload); cbn [bind lift get]; rewrite Hcopy.
  all: cbn [getitem]; rewrite Hcls; try done.
  all: unfold bind at 1; rewrite Hcons; cbn [ret raise bind]; try done.
  by rewrite Hsupp.
Qed.


Lemma initial_state_param_stage3 (w : world) p d isp sh l k :
  initial_state_param (written w p (YMap (stage3_document d isp sh l))) p k
  = (<["product_state" := reshape_tolist sh l]>
       (<["method" := YStr "lat_product_state"]> isp)) !! k.
Proof.
  unfold initial_state_param, stage3_document.
  by rewrite section_written, lookup_insert_eq.
Qed.


(** Stage 3 without a charge, on a document from which the model is built. *)
Lemma stage3_run_random path (w : world) d m :
  model_at w (target path w) d m →
  conserve_supported (conserve m) = true →
  spinhalf_initial_state None path w
  = if (N_sites m =? 0)%nat then (Raise NumpyValueError, w)
    else
      let k := (draw (N_sites m) (rng w)).1 in
      let init := (repeat "up" k ++ repeat "down" (N_sites m - k))%list in
      let sh := shuffle init (draw (N_sites m) (rng w)).2 in
      match submap d "initial_state_params" with
      | None => (Raise TypeError, shuffling w sh.2)
      | Some isp =>
          (Ok "The DMRG initial state is successfully generated! We should then set the DMRG algorithm parameters and measurement parameters. ",
           written (shuffling w sh.2) (target path w)
             (YMap (stage3_document d isp (shape m) sh.1)))
      end.
Proof.
  intros (Hload & cls & mp & Hcls & Hcopy & Hcons) Hsupp.
  unfold spinhalf_initial_state.
  cbn [bind ret resolve]. fold (target path w).
  rewrite (bind_ok _ _ _ _ _ Hload). cbn [bind lift get]. rewrite Hcopy.
  cbn [getitem]. rewrite Hcls.
  unfold bind at 1. rewrite Hcons. cbn [ret bind]. rewrite Hsupp.
  cbn [negb bind ret].
  destruct (Nat.eqb_spec (N_sites m) 0) as [HN|HN].
  { unfold bind, np_random_randint. by rewrite HN. }
  pose proof (draw_lt (N_sites m) (rng w)) as Hlt.
  assert (np_random_randint (N_sites m) w
          = (Ok (draw (N_sites m) (rng w)).1,
             shuffling w (draw (N_sites m) (rng w)).2)) as Hdraw.
  { unfold np_random_randint.
    destruct (Nat.eqb_spec (N_sites m) 0); [done|].
    by destruct (draw (N_sites m) (rng w)). }
  destruct (draw (N_sites m) (rng w)) as [k g]. cbn [fst snd] in *.
  rewrite (bind_ok _ _ _ _ _ (bind_ok _ _ _ _ _ Hdraw)). cbn [ret].
  rewrite Nat2Z.id.
  replace (Z.to_nat (Z.of_nat (N_sites m) - Z.of_nat k)) with (N_sites m - k)%nat
    by lia.
  rewrite (bind_ok _ _ _ _ _ (np_random_shuffle_eq _ _)).
  cbn [bind lift rng files cwd shuffling].
  rewrite reshape_ok.
  2:{ rewrite (Permutation_length (shuffle_perm _ _)).
      rewrite length_app, !repeat_length.
      rewrite <- (construct_sites _ _ _ Hcons). lia. }
  unfold submap, shuffling. cbn [setdefault].
  destruct (d !! "initial_state_params") as [[| | | | | |isp]|]; try done.
  all: cbn; unfold written, stage3_document; cbn; by rewrite ?insert_insert_eq.
Qed.

(** X4: without a charge, on a document from which the model is built with a
    supported law, stage 3 draws the number of [up] labels below the number
    of sites [N]: it raises inside numpy for a lattice without sites, and
    otherwise succeeds with [N] labels of which at least one is [down]. *)
Theorem stage3_random_sector path (w : world) d m isp :
  model_at w (target path w) d m →
  conserve_supported (conserve m) = true →
  submap d "initial_state_params" = Some isp →
  (N_sites m = 0%nat →
   spinhalf_initial_state None path w = (Raise NumpyValueError, w))
  ∧ ((0 < N_sites m)%nat →
     is_ok (spinhalf_initial_state None path w).1 = true
     ∧ ∃ ps,
         initial_state_param (spinhalf_initial_state None path w).2
           (target path w) "product_state" = Some ps
         ∧ has_shape (shape m) ps
         ∧ count "up" (labels ps) = (draw (N_sites m) (rng w)).1
         ∧ (count "up" (labels ps) + count "down" (labels ps))%nat = N_sites m
         ∧ (1 ≤ count "down" (labels ps))%nat).
Proof.
  intros Hm Hsupp Hisp. rewrite (stage3_run_random _ _ _ _ Hm Hsupp).
  split.
  - by intros ->.
  - intros HN. destruct (Nat.eqb_spec (N_sites m) 0) as [|_]; [lia|].
    cbv zeta. rewrite Hisp. cbn [fst snd]. split; [done|].
    pose proof (draw_lt (N_sites m) (rng w) HN) as Hlt.
    set (k := (draw (N_sites m) (rng w)).1) in *.
    set (init := (repeat "up" k ++ repeat "down" (N_sites m - k))%list).
    set (sh := shuffle init (draw (N_sites m) (rng w)).2).
    pose proof (shuffle_perm init (draw (N_sites m) (rng w)).2) as Hperm.
    fold sh in Hperm.
    destruct Hm as (_ & cls & mp & _ & _ & Hcons).
    assert (length sh.1 = prod_shape (shape m)) as Hlen.
    { rewrite (Permutation_length Hperm). unfold init.
      rewrite length_app, !repeat_length.
      rewrite <- (construct_sites _ _ _ Hcons). lia. }
    eexists. rewrite initial_state_param_stage3, lookup_insert_eq.
    split; [done|]. rewrite (labels_reshape_tolist _ _ Hlen).
    rewrite !(count_perm _ _ _ Hperm). unfold init.
    destruct (count_up_down k (N_sites m - k)) as [-> ->].
    split_and!; [by apply reshape_tolist_has_shape|done|lia|lia].
Qed.



(** ** Stage 1 *)

(** Looks up a key in a map built from inserts and deletes. *)
Ltac map_lookup :=
  repeat first [rewrite lookup_delete | rewrite lookup_insert];
  repeat (case_decide; simplify_eq; try done).

Lemma lattice_params_idemp lt Lx Ly bc_x bc_y mp :
  lattice_params lt Lx Ly bc_x bc_y (lattice_params lt Lx Ly bc_x bc_y mp)
  = lattice_params lt Lx Ly bc_x bc_y mp.
Proof.
  apply map_eq. intros k. unfold lattice_params.
  destruct (str_in lt _ALLOWED_LATTICES_1D); map_lookup.
Qed.


Lemma submap_lookup d k mp k' :
  submap d k = Some mp →
  mp !! k' = match d !! k with Some (YMap m) => m !! k' | _ => None end.
Proof.
  unfold submap. destruct (d !! k) as [[]|]; intros [= <-]; done.
Qed.

(** X7: stage 1 with an argument it does not accept raises before it
    touches anything, so not even the empty document is created:
    [InvalidLatticeType] for a lattice type outside the five supported, and
    otherwise [InvalidBoundaryCondition] for a [bc_x], or for a 2-D lattice
    a [bc_y] (an absent one too), that is not [open] or [periodic]. *)
Theorem stage1_invalid_arguments lt Lx Ly bc_x bc_y path (w : world) :
  stage1_valid lt bc_x bc_y = false →
  spinhalf_lattice_config lt Lx Ly bc_x bc_y path w
  = (Raise (if str_in lt _ALLOWED_LATTICES_1D || str_in lt _ALLOWED_LATTICES_2D
            then InvalidBoundaryCondition else InvalidLatticeType), w).
Proof.
  unfold stage1_valid, spinhalf_lattice_config.
  destruct (str_in lt _ALLOWED_LATTICES_1D) eqn:H1;
    [|destruct (str_in lt _ALLOWED_LATTICES_2D) eqn:H2]; cbn;
    destruct (str_in bc_x _ALLOWED_BC) eqn:Hx; cbn; try done;
    destruct (opt_in bc_y _ALLOWED_BC) eqn:Hy; cbn; done.
Qed.

(** X8: stage 1 succeeds exactly when its arguments are accepted and the
    document loads as a mapping whose [model_params], if present, is a
    mapping; the extents [Lx] and [Ly] are never examined. *)
Theorem stage1_succeeds_iff lt Lx Ly bc_x bc_y path (w : world) :
  is_ok (spinhalf_lattice_config lt Lx Ly bc_x bc_y path w).1 = true
  ↔ stage1_valid lt bc_x bc_y = true
    ∧ ∃ d, (load_yaml (target path w) w).1 = Ok (YMap d)
           ∧ is_Some (submap d "model_params").
Proof.
  split.
  - destruct (spinhalf_lattice_config lt Lx Ly bc_x bc_y path w)
      as [r w'] eqn:Hrun. cbn. intros Hr.
    destruct (stage1_cases _ _ _ _ _ _ _ _ _ Hrun)
      as [[Hr' _]|(d & w1 & mp & Hv & Hload & Hmp & _ & _)]; [congruence|].
    split; [done|]. exists d. by rewrite Hload, Hmp.
  - intros (Hv & d & Hload & mp & Hmp).
    destruct (load_yaml (target path w) w) as [r0 w1] eqn:Hl.
    cbn in Hload; subst r0.
    by rewrite (stage1_run _ _ _ _ _ _ _ _ _ _ Hv Hl Hmp).
Qed.


(** X10: stage 1 is idempotent: a successful call repeated with the same
    arguments succeeds again and leaves the files exactly as the first
    call left them. *)
Theorem stage1_idempotent lt Lx Ly bc_x bc_y path (w w' : world) r :
  spinhalf_lattice_config lt Lx Ly bc_x bc_y path w = (Ok r, w') →
  spinhalf_lattice_config lt Lx Ly bc_x bc_y path w' = (Ok r, w').
Proof.
  intros Hrun.
  destruct (stage1_cases _ _ _ _ _ _ _ _ _ Hrun)
    as [[Hr _]|(d & w1 & mp & Hv & Hload & Hmp & -> & ->)]; [done|].
  assert (cwd w1 = cwd w) as Hc
    by by destruct (load_yaml_no_write _ _ _ _ Hload) as (_ & ? & _).
  set (p := target path w).
  set (D := <["model_params" := YMap (lattice_params lt Lx Ly bc_x bc_y mp)]>
              (<["model_class" := YStr "SpinModel"]> d)).
  assert (target path (written w1 p (YMap D)) = p) as Hp
    by (unfold target, p; cbn; by rewrite Hc).
  rewrite (stage1_run lt Lx Ly bc_x bc_y path _ (written w1 p (YMap D)) D
             (lattice_params lt Lx Ly bc_x bc_y mp) Hv).
  - assert (<["model_params" :=
               YMap (lattice_params lt Lx Ly bc_x bc_y
                       (lattice_params lt Lx Ly bc_x bc_y mp))]>
              (<["model_class" := YStr "SpinModel"]> D) = D) as ->.
    { rewrite lattice_params_idemp. unfold D.
      apply map_eq. intros k. map_lookup. }
    rewrite Hp. unfold written. cbn. by rewrite insert_insert_eq.
  - rewrite Hp, load_after_dump. by rewrite py_or_map.
  - unfold submap, D. by rewrite lookup_insert_eq.
Qed.

(** ** Stage 2 *)

Lemma merged_params_union items mp :
  merged_params items mp = list_to_map (reverse items) ∪ mp.
Proof.
  unfold merged_params. revert mp.
  induction items as [|[k v] items IH]; intros mp; cbn [foldl].
  - by rewrite reverse_nil, list_to_map_nil, (left_id_L ∅ (∪)).
  - rewrite IH, reverse_cons, list_to_map_app. cbn.
    rewrite <- (assoc_L (∪)). f_equal.
    by rewrite insert_empty, <- insert_union_singleton_l.
Qed.

Lemma merged_params_notin items mp k :
  k ∉ items.*1 → merged_params items mp !! k = mp !! k.
Proof.
  intros Hk. rewrite merged_params_union, lookup_union_r; [done|].
  apply not_elem_of_list_to_map_1. by rewrite fmap_reverse, elem_of_reverse.
Qed.

Lemma merged_params_in items mp k v :
  NoDup items.*1 → (k, v) ∈ items → merged_params items mp !! k = Some v.
Proof.
  intros Hnd Hin. rewrite merged_params_union.
  apply lookup_union_Some_l, elem_of_list_to_map_1.
  - by rewrite fmap_reverse, reverse_Permutation.
  - by apply elem_of_reverse.
Qed.

Lemma stage2_params_idemp items mp :
  stage2_params items (stage2_params items mp) = stage2_params items mp.
Proof.
  unfold stage2_params. rewrite !merged_params_union.
  apply map_eq. intros k.
  destruct (decide (k = "conserve")) as [->|Hk].
  - by rewrite !lookup_insert_eq.
  - rewrite !lookup_insert_ne by done. rewrite !lookup_union.
    rewrite lookup_insert_ne by done. rewrite lookup_union.
    by destruct (list_to_map (reverse items) !! k), (mp !! k).
Qed.

Lemma param_written (w : world) p d mp k :
  param (written w p (YMap (<["model_params" := YMap mp]> d))) p k = mp !! k.
Proof. unfold param. by rewrite section_written, lookup_insert_eq. Qed.

Lemma param_loaded p (w w1 : world) d mp k :
  load_yaml p w = (Ok (YMap d), w1) →
  submap d "model_params" = Some mp →
  param w p k = mp !! k.
Proof.
  intros Hload Hmp. unfold param.
  rewrite (load_yaml_section _ _ _ _ _ Hload).
  symmetry. by apply submap_lookup.
Qed.

(** X11: when stage 2 writes, the persisted [model_params] hold every
    parameter given (a dict has each key once), keep every entry whose key
    was not given, and hold [conserve = "best"] whatever was given or stored
    under that key. *)
Theorem stage2_stored_parameters params path (w w1 : world) d mp :
  load_yaml (target path w) w = (Ok (YMap d), w1) →
  submap d "model_params" = Some mp →
  NoDup params.*1 →
  param (spinhalf_model_config params path w).2 (target path w) "conserve"
  = Some (YStr "best")
  ∧ (∀ k v, (k, v) ∈ params → k ≠ "conserve" →
       param (spinhalf_model_config params path w).2 (target path w) k
       = Some v)
  ∧ (∀ k, k ∉ params.*1 → k ≠ "conserve" →
       param (spinhalf_model_config params path w).2 (target path w) k
       = param w (target path w) k).
Proof.
  intros Hload Hmp Hnd. rewrite (stage2_run _ _ _ _ _ _ Hload Hmp). cbn [snd].
  unfold stage2_params. split_and!.
  - by rewrite param_written, lookup_insert_eq.
  - intros k v Hin Hk. rewrite param_written, lookup_insert_ne by done.
    by apply merged_params_in.
  - intros k Hin Hk. rewrite param_written, lookup_insert_ne by done.
    rewrite (param_loaded _ _ _ _ _ _ Hload Hmp).
    by apply merged_params_notin.
Qed.

Lemma lattice_keys_of_ext mp mp' :
  (∀ k, k ∈ lattice_keys → mp' !! k = mp !! k) →
  lattice_keys_of mp' = lattice_keys_of mp.
Proof.
  intros Hext. unfold lattice_keys_of, has_key, lattice_keys in *. cbn.
  by rewrite !Hext by (by apply (bool_decide_unpack _)).
Qed.

(** X12: stage 2 keeps the lattice keys that stage 1 left in [model_params]
    as long as no parameter is named [L], [Lx], [Ly], [bc_x] or [bc_y]. *)
Theorem stage2_keeps_lattice_keys params path (w w1 : world) d mp :
  load_yaml (target path w) w = (Ok (YMap d), w1) →
  d !! "model_params" = Some (YMap mp) →
  (∀ k, k ∈ lattice_keys → k ∉ params.*1) →
  persisted_lattice_keys (spinhalf_model_config params path w).2 (target path w)
  = persisted_lattice_keys w (target path w).
Proof.
  intros Hload Hd Hkeys.
  assert (submap d "model_params" = Some mp) as Hmp
    by (unfold submap; by rewrite Hd).
  rewrite (stage2_run _ _ _ _ _ _ Hload Hmp). cbn [snd].
  unfold persisted_lattice_keys.
  rewrite section_written, lookup_insert_eq.
  rewrite (load_yaml_section _ _ _ _ _ Hload), Hd. f_equal.
  apply lattice_keys_of_ext. intros k Hk. unfold stage2_params.
  rewrite lookup_insert_ne.
  - apply merged_params_notin. by apply Hkeys.
  - intros <-. revert Hk. by apply (bool_decide_unpack _).
Qed.

(** X13: stage 2 is idempotent: once it has written, the same call again
    gives the same result and leaves the files as they are. *)
Theorem stage2_idempotent params path (w w1 : world) d mp :
  load_yaml (target path w) w = (Ok (YMap d), w1) →
  submap d "model_params" = Some mp →
  spinhalf_model_config params path (spinhalf_model_config params path w).2
  = spinhalf_model_config params path w.
Proof.
  intros Hload Hmp. rewrite (stage2_run _ _ _ _ _ _ Hload Hmp). cbn [snd].
  set (P := stage2_params params mp).
  set (D := <["model_params" := YMap P]> d).
  assert (cwd w1 = cwd w) as Hc
    by by destruct (load_yaml_no_write _ _ _ _ Hload) as (_ & ? & _).
  assert (target path (written w1 (target path w) (YMap D)) = target path w)
    as Hp by (unfold target; cbn; by rewrite Hc).
  rewrite (stage2_run params path _ (written w1 (target path w) (YMap D)) D P).
  - assert (stage2_params params P = P) as -> by apply stage2_params_idemp.
    assert (<["model_params" := YMap P]> D = D) as ->
      by (unfold D; by rewrite insert_insert_eq).
    rewrite Hp. f_equal.
    + unfold stage2_result, D. by rewrite lookup_insert_ne.
    + unfold written. cbn. by rewrite insert_insert_eq.
  - rewrite Hp, load_after_dump. by rewrite py_or_map.
  - unfold submap, D. by rewrite lookup_insert_eq.
Qed.

(** ** Stage 4 *)

Lemma stage4_document_other chi_max max_sweeps d k :
  k ∉ stage4_keys → stage4_document chi_max max_sweeps d !! k = d !! k.
Proof.
  intros Hk. unfold stage4_document. map_lookup.
  all: destruct Hk; by apply (bool_decide_unpack _).
Qed.

Lemma stage4_document_last c1 s1 c2 s2 d :
  stage4_document c2 s2 (stage4_document c1 s1 d) = stage4_document c2 s2 d.
Proof. apply map_eq. intros k. unfold stage4_document. map_lookup. Qed.

(** Stage 4 on a document that loads as a mapping. *)
Lemma stage4_run chi_max max_sweeps path (w w1 : world) d :
  load_yaml (target path w) w = (Ok (YMap d), w1) →
  dmrg_and_measu_config chi_max max_sweeps path w
  = (Ok "All required configurations are generated. Ready for performing computations! ",
     written w1 (target path w) (YMap (stage4_document chi_max max_sweeps d))).
Proof.
  intros Hload. unfold dmrg_and_measu_config. cbn. fold (target path w).
  by rewrite (bind_ok _ _ _ _ _ Hload).
Qed.

(** Every run of stage 4. *)
Lemma stage4_cases chi_max max_sweeps path (w w' : world) r :
  dmrg_and_measu_config chi_max max_sweeps path w = (r, w') →
  (is_ok r = false ∧ no_write (target path w) w w'
   ∧ ∀ d, (load_yaml (target path w) w).1 ≠ Ok (YMap d))
  ∨ (∃ d w1,
       load_yaml (target path w) w = (Ok (YMap d), w1)
       ∧ is_ok r = true
       ∧ w' = written w1 (target path w)
                (YMap (stage4_document chi_max max_sweeps d))).
Proof.
  intros Hrun.
  destruct (load_yaml (target path w) w) as [[data|e] w1] eqn:Hload.
  - destruct data as [| | | | | |d].
    7: { right. exists d, w1. rewrite (stage4_run _ _ _ _ _ _ Hload) in Hrun.
         by simplify_eq. }
    all: left; revert Hrun; unfold dmrg_and_measu_config; cbn;
      fold (target path w); rewrite (bind_ok _ _ _ _ _ Hload); cbn;
      intros [= <- <-]; split_and!;
      [done|exact (proj1 (load_yaml_no_write _ _ _ _ Hload))|done].
  - left. revert Hrun. unfold dmrg_and_measu_config. cbn.
    fold (target path w). unfold bind at 1. rewrite Hload.
    intros [= <- <-]. split_and!;
      [done|exact (proj1 (load_yaml_no_write _ _ _ _ Hload))|done].
Qed.

(** X14: stage 4 succeeds exactly when the document loads as a mapping:
    neither its two inputs nor what the earlier stages wrote matter. *)
Theorem stage4_succeeds_iff chi_max max_sweeps path (w : world) :
  is_ok (dmrg_and_measu_config chi_max max_sweeps path w).1 = true
  ↔ ∃ d, (load_yaml (target path w) w).1 = Ok (YMap d).
Proof.
  destruct (dmrg_and_measu_config chi_max max_sweeps path w) as [r w'] eqn:Hrun.
  destruct (stage4_cases _ _ _ _ _ _ Hrun)
    as [(Hr & _ & Hno)|(d & w1 & Hload & Hr & _)]; cbn.
  - split; [congruence|]. intros [d Hd]. by destruct (Hno d).
  - split; [|done]. intros _. exists d. by rewrite Hload.
Qed.

(** X15: stage 4 leaves every top-level section other than the five it sets
    as it was, whether it succeeds or raises: what stages 1 to 3 wrote
    survives. *)
Theorem stage4_frame chi_max max_sweeps path (w : world) k :
  k ∉ stage4_keys →
  section (dmrg_and_measu_config chi_max max_sweeps path w).2 (target path w) k
  = section w (target path w) k.
Proof.
  intros Hk.
  destruct (dmrg_and_measu_config chi_max max_sweeps path w) as [r w'] eqn:Hrun.
  destruct (stage4_cases _ _ _ _ _ _ Hrun)
    as [(_ & Hnw & _)|(d & w1 & Hload & _ & ->)]; cbn [snd].
  - by apply no_write_section.
  - rewrite section_written, stage4_document_other by done.
    symmetry. apply (load_yaml_section _ _ _ _ _ Hload).
Qed.

(** X16: stage 4 keeps nothing of an earlier call of itself: after a
    successful call, a second call with any inputs gives the result and the
    files it would have given without the first.  In particular it is
    idempotent. *)
Theorem stage4_last_call_wins c1 s1 c2 s2 path (w w1 : world) r :
  dmrg_and_measu_config c1 s1 path w = (Ok r, w1) →
  dmrg_and_measu_config c2 s2 path w1 = dmrg_and_measu_config c2 s2 path w.
Proof.
  intros Hrun.
  destruct (stage4_cases _ _ _ _ _ _ Hrun)
    as [(Hr & _)|(d & w0 & Hload & _ & ->)]; [done|].
  assert (cwd w0 = cwd w) as Hc
    by by destruct (load_yaml_no_write _ _ _ _ Hload) as (_ & ? & _).
  set (p := target path w) in *.
  rewrite (stage4_run c2 s2 path w w0 d Hload).
  assert (target path (written w0 p (YMap (stage4_document c1 s1 d))) = p)
    as Hp by (unfold target, p; cbn; by rewrite Hc).
  rewrite (stage4_run c2 s2 path _ (written w0 p (YMap (stage4_document c1 s1 d)))
             (stage4_document c1 s1 d)).
  - rewrite Hp, stage4_document_last. unfold written. cbn.
    by rewrite insert_insert_eq.
  - rewrite Hp, load_after_dump. by rewrite py_or_map.
Qed.

(** X17: stage 1 and stage 4 commute: run in either order on a document on
    which both succeed, they leave the same files. *)
Theorem stage1_stage4_commute lt Lx Ly bc_x bc_y chi_max max_sweeps path
    (w w1 : world) d mp :
  stage1_valid lt bc_x bc_y = true →
  load_yaml (target path w) w = (Ok (YMap d), w1) →
  submap d "model_params" = Some mp →
  let w14 := (dmrg_and_measu_config chi_max max_sweeps path
                (spinhalf_lattice_config lt Lx Ly bc_x bc_y path w).2) in
  let w41 := (spinhalf_lattice_config lt Lx Ly bc_x bc_y path
                (dmrg_and_measu_config chi_max max_sweeps path w).2) in
  is_ok w14.1 = true ∧ is_ok w41.1 = true ∧ w14.2 = w41.2.
Proof.
  intros Hv Hload Hmp.
  assert (cwd w1 = cwd w) as Hc
    by by destruct (load_yaml_no_write _ _ _ _ Hload) as (_ & ? & _).
  set (p := target path w).
  assert (∀ D, target path (written w1 p (YMap D)) = p) as Hp
    by (intros D; unfold target, p; cbn; by rewrite Hc).
  rewrite (stage1_run _ _ _ _ _ _ _ _ _ _ Hv Hload Hmp).
  rewrite (stage4_run _ _ path w w1 d Hload). cbn [snd]. fold p.
  set (D1 := <["model_params" := YMap (lattice_params lt Lx Ly bc_x bc_y mp)]>
               (<["model_class" := YStr "SpinModel"]> d)).
  set (D4 := stage4_document chi_max max_sweeps d).
  rewrite (stage4_run _ _ path _ (written w1 p (YMap D1)) D1)
    by (rewrite Hp, load_after_dump; by rewrite py_or_map).
  rewrite (stage1_run lt Lx Ly bc_x bc_y path _ (written w1 p (YMap D4)) D4 mp Hv).
  - cbn [fst snd]. split_and!; [done..|]. rewrite !Hp.
    assert (stage4_document chi_max max_sweeps D1
            = <["model_params" := YMap (lattice_params lt Lx Ly bc_x bc_y mp)]>
                (<["model_class" := YStr "SpinModel"]> D4)) as ->.
    { unfold D1, D4, stage4_document. apply map_eq. intros k. map_lookup. }
    unfold written. cbn. by rewrite !insert_insert_eq.
  - rewrite Hp, load_after_dump. by rewrite py_or_map.
  - unfold submap, D4 in *.
    rewrite stage4_document_other; [done|]. by apply (bool_decide_unpack _).
Qed.

(** ** Paths and failures *)



(** X19: stages 1, 3 and 4 write nothing when they raise: the files are as
    before, but for the empty document that loading creates at a path
    without a file. *)
Theorem failing_stage_writes_nothing path (w w' : world) e :
  (∀ lt Lx Ly bc_x bc_y,
     spinhalf_lattice_config lt Lx Ly bc_x bc_y path w = (Raise e, w') →
     no_write (target path w) w w')
  ∧ (∀ tot_charge,
       spinhalf_initial_state tot_charge path w = (Raise e, w') →
       no_write (target path w) w w')
  ∧ (∀ chi_max max_sweeps,
       dmrg_and_measu_config chi_max max_sweeps path w = (Raise e, w') →
       no_write (target path w) w w').
Proof.
  split_and!.
  - intros lt Lx Ly bc_x bc_y Hrun.
    by apply (stage1_failure_no_write _ _ _ _ _ _ _ _ _ Hrun).
  - intros tot_charge Hrun.
    by apply (stage3_failure_no_write _ _ _ _ _ Hrun).
  - intros chi_max max_sweeps Hrun.
    by apply (stage4_failure_no_write _ _ _ _ _ _ Hrun).
Qed.

(** ** Stages in sequence *)

(** X20: after a successful stage 1, stage 2 on the same path finds
    [model_class = SpinModel]: it succeeds exactly when tenpy builds a
    [SpinModel] from the persisted parameters, and otherwise raises
    [ModelConstructionError], never [KeyError]. *)
Theorem stage2_after_stage1 lt Lx Ly bc_x bc_y params path (w w1 : world) r :
  spinhalf_lattice_config lt Lx Ly bc_x bc_y path w = (Ok r, w1) →
  ∃ mp,
    section (spinhalf_model_config params path w1).2 (target path w)
      "model_params" = Some (YMap mp)
    ∧ (spinhalf_model_config params path w1).1
      = match construct (YStr "SpinModel") (YMap mp) with
        | Some m => Ok ("The conservation property of the model is: "
                          ++ show_conserve (conserve m))
        | None => Raise ModelConstructionError
        end.
Proof.
  intros Hrun.
  destruct (stage1_cases _ _ _ _ _ _ _ _ _ Hrun)
    as [[Hr _]|(d & w0 & mp & _ & Hload & _ & _ & ->)]; [done|].
  assert (cwd w0 = cwd w) as Hc
    by by destruct (load_yaml_no_write _ _ _ _ Hload) as (_ & ? & _).
  set (p := target path w).
  set (LP := lattice_params lt Lx Ly bc_x bc_y mp).
  set (D := <["model_params" := YMap LP]>
              (<["model_class" := YStr "SpinModel"]> d)).
  assert (target path (written w0 p (YMap D)) = p) as Hp
    by (unfold target, p; cbn; by rewrite Hc).
  exists (stage2_params params LP).
  rewrite (stage2_run params path _ (written w0 p (YMap D)) D LP).
  - cbn [fst snd]. rewrite Hp. split.
    + by rewrite section_written, lookup_insert_eq.
    + unfold stage2_result, D.
      by rewrite lookup_insert_ne, lookup_insert_eq.
  - rewrite Hp, load_after_dump. by rewrite py_or_map.
  - unfold submap, D. by rewrite lookup_insert_eq.
Qed.

(** X21: a document that does not parse is never overwritten: stage 2 and
    stage 4, stage 1 on arguments it accepts and stage 3 on a charge that
    passes its check raise [DocumentIOError] and leave the world as it
    is. *)
Theorem unparsable_document_is_kept path (w : world) t :
  files w !! target path w = Some t →
  safe_load t = None →
  (∀ lt Lx Ly bc_x bc_y, stage1_valid lt bc_x bc_y = true →
     spinhalf_lattice_config lt Lx Ly bc_x bc_y path w
     = (Raise DocumentIOError, w))
  ∧ (∀ params, spinhalf_model_config params path w = (Raise DocumentIOError, w))
  ∧ (∀ tot_charge, charge_passes tot_charge →
       spinhalf_initial_state tot_charge path w = (Raise DocumentIOError, w))
  ∧ (∀ chi_max max_sweeps,
       dmrg_and_measu_config chi_max max_sweeps path w
       = (Raise DocumentIOError, w)).
Proof.
  intros Hf Ht.
  assert (load_yaml (target path w) w = (Raise DocumentIOError, w)) as Hload
    by by rewrite (load_yaml_present _ _ _ Hf), Ht.
  split_and!.
  - intros lt Lx Ly bc_x bc_y. unfold stage1_valid, spinhalf_lattice_config.
    destruct (str_in lt _ALLOWED_LATTICES_1D) eqn:H1;
      [|destruct (str_in lt _ALLOWED_LATTICES_2D) eqn:H2]; cbn;
      destruct (str_in bc_x _ALLOWED_BC) eqn:Hx; cbn; try done;
      try (destruct (opt_in bc_y _ALLOWED_BC) eqn:Hy; cbn; try done).
    all: intros _; fold (target path w); unfold bind at 1; by rewrite Hload.
  - intros params. unfold spinhalf_model_config. cbn [bind resolve].
    fold (target path w). unfold bind at 1. by rewrite Hload.
  - intros tot_charge Hq. unfold spinhalf_initial_state.
    rewrite (bind_ok _ _ _ _ _ (stage3_check _ _ Hq)). cbn [bind resolve].
    fold (target path w). unfold bind at 1. by rewrite Hload.
  - intros chi_max max_sweeps. unfold dmrg_and_measu_config. cbn [bind resolve].
    fold (target path w). unfold bind at 1. by rewrite Hload.
Qed.

End MoreProperties.

(** ** Stage 5 *)

Section Stage5Properties.
Context {text G : Type} `{!PyYAML text} `{!Solver text G}.

Local Abbreviation world := (world text G).

(** X22: after a successful stage 4, [dmrg_run] on the same path hands the
    persisted document to the solver and, when the solver returns, reports
    the result at [result.h5] and the log at [result.log], whatever the
    solver did; what the solver raises propagates. *)
Theorem dmrg_run_after_stage4 chi_max max_sweeps path (w w4 : world) r :
  dmrg_and_measu_config chi_max max_sweeps path w = (Ok r, w4) →
  ∃ kwargs,
    persisted w4 (target path w) = Some (YMap kwargs)
    ∧ dmrg_run path w4
      = (if (run_simulation kwargs w4).1
         then inr "The DMRG result is stored at result.h5. The log is store at result.log."
         else inl SolverError,
         (run_simulation kwargs w4).2).
Proof.
  intros Hrun.
  destruct (stage4_cases _ _ _ _ _ _ Hrun)
    as [(Hr & _)|(d & w1 & Hload & _ & ->)]; [done|].
  assert (cwd w1 = cwd w) as Hc
    by by destruct (load_yaml_no_write _ _ _ _ Hload) as (_ & ? & _).
  set (p := target path w).
  set (w4 := written w1 p (YMap (stage4_document chi_max max_sweeps d))).
  exists (stage4_document chi_max max_sweeps d).
  split; [apply persisted_written|].
  unfold dmrg_run.
  replace (match path with Some p0 => p0 | None => cwd w4 ++ "/config.yml" end)
    with p by (unfold p, target; cbn; by rewrite Hc).
  replace (files w4 !! p)
    with (Some (safe_dump (YMap (stage4_document chi_max max_sweeps d))))
    by (cbn; by rewrite lookup_insert_eq).
  rewrite load_yaml_with_py_eval_dump.
  destruct (run_simulation (stage4_document chi_max max_sweeps d) w4)
    as [[] w5]; [|done].
  unfold output_name, stage4_document. cbn [getitem].
  by rewrite lookup_insert_eq.
Qed.

(** X23: [dmrg_run] does not run the solver and changes nothing, not even
    creating the document, when the file is missing ([FileNotFoundError]),
    does not parse, or does not hold a mapping; on a mapping without
    [output_filename_params] it runs the solver first and raises [KeyError]
    only when the solver has returned. *)
Theorem dmrg_run_order path (w : world) :
  let p := target path w in
  (files w !! p = None → dmrg_run path w = (inl FileNotFoundError, w))
  ∧ (∀ t, files w !! p = Some t →
       (∀ kwargs, load_yaml_with_py_eval t ≠ Some (YMap kwargs)) →
       (dmrg_run path w).2 = w
       ∧ ∃ e, (dmrg_run path w).1 = inl (Raised e))
  ∧ (∀ t kwargs, files w !! p = Some t →
       load_yaml_with_py_eval t = Some (YMap kwargs) →
       kwargs !! "output_filename_params" = None →
       dmrg_run path w
       = (if (run_simulation kwargs w).1
          then inl (Raised (KeyError "output_filename_params"))
          else inl SolverError,
          (run_simulation kwargs w).2)).
Proof.
  cbv zeta. unfold dmrg_run. fold (target path w). split_and!.
  - by intros ->.
  - intros t -> Hno. destruct (load_yaml_with_py_eval t) as [[]|]; eauto.
    by destruct (Hno m).
  - intros t kwargs -> -> Hk.
    destruct (run_simulation kwargs w) as [[] w1]; [|done].
    unfold output_name. cbn [getitem]. by rewrite Hk.
Qed.

End Stage5Properties.

(** * The further statements on concrete inputs *)


(** Loading the document of the chain. *)
Lemma load_yaml_existing_witness :
  w_chain4 = w_chain4
  ∧ (∀ v, Ok (YMap chain4_document) = Ok v → v = YMap ∅ ∨ truthy v = true)
  ∧ (Ok (YMap chain4_document) = Raise DocumentIOError
     ↔ safe_load (YMap chain4_document) = None).
Proof.
  apply (load_yaml_existing config_yml w_chain4 w_chain4
           (YMap chain4_document) (Ok (YMap chain4_document)));
    by vm_compute.
Defined.

(** Stage 3 before stage 1, on a path without a file. *)
Lemma stage3_document_errors_witness :
  spinhalf_initial_state (Some 1%Q) None w_empty
  = (Raise (KeyError "model_class"), written w_empty config_yml (YMap ∅)).
Proof.
  destruct (stage3_document_errors (Some 1%Q) None w_empty
              (written w_empty config_yml (YMap ∅)) ∅ (YMap ∅))
    as (_ & Hkey & _).
  - by vm_compute.
  - by vm_compute.
  - by vm_compute.
  - apply Hkey. by vm_compute.
Defined.

(** Stage 3 without a charge on the chain of four sites. *)
Lemma stage3_random_sector_witness :
  is_ok (spinhalf_initial_state None None w_chain4).1 = true
  ∧ ∃ ps,
      initial_state_param (spinhalf_initial_state None None w_chain4).2
        config_yml "product_state" = Some ps
      ∧ has_shape [4%nat; 1%nat] ps
      ∧ count "up" (labels ps) = 3%nat
      ∧ (count "up" (labels ps) + count "down" (labels ps))%nat = 4%nat
      ∧ (1 ≤ count "down" (labels ps))%nat.
Proof.
  destruct (stage3_random_sector None w_chain4 chain4_document chain4_model ∅
              chain4_model_at eq_refl) as [_ Hpos].
  - by vm_compute.
  - apply Hpos. vm_compute. lia.
Defined.



(** Stage 1 for a cubic lattice, and for a square one without [bc_y]. *)
Lemma stage1_invalid_arguments_witness :
  spinhalf_lattice_config "Cubic" 4 None "open" None None w_empty
  = (Raise InvalidLatticeType, w_empty)
  ∧ spinhalf_lattice_config "Square" 4 (Some 4%Z) "open" None None w_empty
    = (Raise InvalidBoundaryCondition, w_empty).
Proof.
  split.
  - apply (stage1_invalid_arguments "Cubic" 4 None "open" None None w_empty).
    by vm_compute.
  - apply (stage1_invalid_arguments "Square" 4 (Some 4%Z) "open" None None
             w_empty).
    by vm_compute.
Defined.


(** The chain configured twice. *)
Lemma stage1_idempotent_witness :
  spinhalf_lattice_config "Chain" 4 None "open" None None w_chain4
  = (Ok (init_terms_source "SpinModel"), w_chain4).
Proof.
  apply (stage1_idempotent "Chain" 4 None "open" None None w_empty).
  by vm_compute.
Defined.

(** Stage 2 with a coupling and a conservation law of the caller's. *)
Lemma stage2_stored_parameters_witness :
  let w2 := (spinhalf_model_config
               [("Jz", YFloat 1); ("conserve", YStr "parity")] None w_chain4).2 in
  param w2 config_yml "conserve" = Some (YStr "best")
  ∧ param w2 config_yml "Jz" = Some (YFloat 1)
  ∧ param w2 config_yml "L" = Some (YInt 4).
Proof.
  intros w2.
  destruct (stage2_stored_parameters
              [("Jz", YFloat 1); ("conserve", YStr "parity")] None
              w_chain4 w_chain4 chain4_document chain4_params)
    as (Hbest & Hgiven & Hkept).
  - by vm_compute.
  - by vm_compute.
  - by apply (bool_decide_unpack _).
  - split_and!.
    + exact Hbest.
    + apply Hgiven; [by constructor|done].
    + etrans; [apply (Hkept "L"); [by apply (bool_decide_unpack _)|done]|].
      by vm_compute.
Defined.

(** Stage 2 with a coupling after stage 1 for the chain. *)
Lemma stage2_keeps_lattice_keys_witness :
  persisted_lattice_keys
    (spinhalf_model_config [("Jz", YFloat 1)] None w_chain4).2 config_yml
  = Some ["L"; "bc_x"].
Proof.
  rewrite (stage2_keeps_lattice_keys [("Jz", YFloat 1)] None w_chain4 w_chain4
             chain4_document chain4_params).
  - by vm_compute.
  - by vm_compute.
  - by vm_compute.
  - apply Forall_forall. by apply (bool_decide_unpack _).
Defined.

(** Stage 2 with a coupling, twice. *)
Lemma stage2_idempotent_witness :
  spinhalf_model_config [("Jz", YFloat 1)] None
    (spinhalf_model_config [("Jz", YFloat 1)] None w_chain4).2
  = spinhalf_model_config [("Jz", YFloat 1)] None w_chain4.
Proof.
  apply (stage2_idempotent [("Jz", YFloat 1)] None w_chain4 w_chain4
           chain4_document chain4_params); by vm_compute.
Defined.

(** Stage 4 keeps [model_params]. *)
Lemma stage4_frame_witness :
  section (dmrg_and_measu_config 100 10 None w_chain4).2 config_yml
    "model_params"
  = section w_chain4 config_yml "model_params".
Proof.
  apply (stage4_frame 100 10 None w_chain4 "model_params").
  by apply (bool_decide_unpack _).
Defined.

(** Stage 4 twice, with different inputs. *)
Lemma stage4_last_call_wins_witness :
  dmrg_and_measu_config 200 20 None
    (dmrg_and_measu_config 100 10 None w_chain4).2
  = dmrg_and_measu_config 200 20 None w_chain4.
Proof.
  apply (stage4_last_call_wins 100 10 200 20 None w_chain4 _
           "All required configurations are generated. Ready for performing computations! ").
  by vm_compute.
Defined.

(** A square lattice and the algorithm parameters, in both orders. *)
Lemma stage1_stage4_commute_witness :
  let w14 := dmrg_and_measu_config 100 10 None
               (spinhalf_lattice_config "Square" 4 (Some 2%Z) "open"
                  (Some "periodic") None w_chain4).2 in
  let w41 := spinhalf_lattice_config "Square" 4 (Some 2%Z) "open"
               (Some "periodic") None
               (dmrg_and_measu_config 100 10 None w_chain4).2 in
  is_ok w14.1 = true ∧ is_ok w41.1 = true ∧ w14.2 = w41.2.
Proof.
  apply (stage1_stage4_commute "Square" 4 (Some 2%Z) "open" (Some "periodic")
           100 10 None w_chain4 w_chain4 chain4_document chain4_params);
    by vm_compute.
Defined.


(** Stage 3 before stage 1 raises and leaves the empty document only. *)
Lemma failing_stage_writes_nothing_witness :
  no_write config_yml w_empty (written w_empty config_yml (YMap ∅)).
Proof.
  destruct (failing_stage_writes_nothing None w_empty
              (written w_empty config_yml (YMap ∅)) (KeyError "model_class"))
    as (_ & H3 & _).
  apply (H3 (Some 1%Q)). by vm_compute.
Defined.

(** Stage 2 after stage 1 for the chain. *)
Lemma stage2_after_stage1_witness :
  ∃ mp,
    section (spinhalf_model_config [("Jz", YFloat 1)] None w_chain4).2
      config_yml "model_params" = Some (YMap mp)
    ∧ (spinhalf_model_config [("Jz", YFloat 1)] None w_chain4).1
      = match construct (YStr "SpinModel") (YMap mp) with
        | Some m => Ok ("The conservation property of the model is: "
                          ++ show_conserve (conserve m))
        | None => Raise ModelConstructionError
        end.
Proof.
  apply (stage2_after_stage1 "Chain" 4 None "open" None [("Jz", YFloat 1)] None
           w_empty w_chain4 (init_terms_source "SpinModel")).
  by vm_compute.
Defined.

(** Stages 2 and 4 on a document that does not parse. *)
Lemma unparsable_document_is_kept_witness :
  spinhalf_model_config [("Jz", YFloat 1)] None w_broken
  = (Raise DocumentIOError, w_broken)
  ∧ dmrg_and_measu_config 100 10 None w_broken
    = (Raise DocumentIOError, w_broken).
Proof.
  destruct (unparsable_document_is_kept None w_broken None)
    as (_ & H2 & _ & H4); [by vm_compute..|].
  split; [apply H2|apply H4].
Defined.

(** The run after stage 4 on the chain. *)
Lemma dmrg_run_after_stage4_witness :
  (dmrg_run None (dmrg_and_measu_config 100 10 None w_chain4).2).1
  = inr "The DMRG result is stored at result.h5. The log is store at result.log.".
Proof.
  destruct (dmrg_run_after_stage4 100 10 None w_chain4
              (dmrg_and_measu_config 100 10 None w_chain4).2
              "All required configurations are generated. Ready for performing computations! ")
    as (kwargs & Hkwargs & Hrun); [by vm_compute|].
  assert (persisted (dmrg_and_measu_config 100 10 None w_chain4).2 config_yml
          = Some (YMap (stage4_document 100 10 chain4_document))) as Hdoc
    by by vm_compute.
  change (target None w_chain4) with config_yml in Hkwargs.
  rewrite Hdoc in Hkwargs. injection Hkwargs as <-.
  rewrite Hrun. by vm_compute.
Defined.

(** The run without a document, and on a document that names a simulation
    class but no output file. *)
Lemma dmrg_run_order_witness :
  let kwargs : gmap string yaml :=
    {[ "simulation_class" := YStr "GroundStateSearch" ]} in
  dmrg_run None w_empty = (inl FileNotFoundError, w_empty)
  ∧ (dmrg_run None (written w_empty config_yml (YMap kwargs))).1
    = inl (Raised (KeyError "output_filename_params")).
Proof.
  intros kwargs. split.
  - apply (dmrg_run_order None w_empty). by vm_compute.
  - destruct (dmrg_run_order None (written w_empty config_yml (YMap kwargs)))
      as (_ & _ & Hkey).
    rewrite (Hkey (YMap kwargs) kwargs); by vm_compute.
Defined.
